(** * Face verification service: a shallow embedding of
      [verify/face_recognition_service.py] and of the status mapping of
      [verify/views.py], with the properties of the verification pipeline.

    Python floats and numpy's float64 are IEEE binary64 numbers: they are
    modelled by Rocq's primitive floats, so [1 - d] and [d <= t] below are
    the very operations the interpreter performs.  The third-party
    libraries (face_recognition, numpy, PIL) are not part of the repository:
    they are parameters of the development, each entry point being a
    function that either raises an exception or returns a value.  Logging
    and the sequence of calls made to the libraries are kept in an explicit
    world that every method threads. *)

From Stdlib Require Import String Ascii List Bool ZArith Lia Floats DecimalString.
Import ListNotations.

Set Warnings "-inexact-float".

Local Open Scope string_scope.
Local Open Scope list_scope.

(** ** Python values used by the service *)

(** An exception object: its class name and what [str(e)] prints. *)
Record exn : Type := Exception { exn_class : string; exn_str : string }.

Definition str_exn (e : exn) : string := exn_str e.

(** A face encoding is a numpy vector of float64. *)
Definition encoding : Type := list float.

(** A face location, (top, right, bottom, left) in pixels. *)
Definition face_location : Type := (Z * Z * Z * Z)%type.

(** What [extract_face_encoding] receives: an [InMemoryUploadedFile] whose
    [read()] gives the uploaded bytes, or anything else, taken as a path. *)
Inductive image_file : Type :=
| InMemoryUploadedFile (image_data : list Byte.byte)
| FilePath (path : string).

(** ** The world: log records and library calls, oldest first *)

Inductive log_level : Type := INFO | WARNING | ERROR.

Record log_record : Type := LogRecord { log_lvl : log_level; log_msg : string }.

Inductive lib_call : Type :=
| call_Image_open (image_data : list Byte.byte)
| call_convert
| call_np_array
| call_load_image_file (path : string)
| call_face_locations (model : string)
| call_face_encodings (locations : list face_location) (model : string)
| call_face_distance (known : list encoding) (unknown : encoding).

Record World : Type := mkWorld { logs : list log_record; calls : list lib_call }.

Definition empty_world : World := mkWorld [] [].

(** ** The monad of Python computations: a value or a raised exception,
       together with the world after the computation *)

Inductive result (A : Type) : Type :=
| Return (a : A)
| Raise (e : exn).
Arguments Return {A} a.
Arguments Raise {A} e.

Definition Py (A : Type) : Type := World -> result A * World.

Definition ret {A} (a : A) : Py A := fun w => (Return a, w).

Definition raise {A} (e : exn) : Py A := fun w => (Raise e, w).

Definition bind {A B} (c : Py A) (k : A -> Py B) : Py B :=
  fun w =>
    match c w with
    | (Return a, w') => k a w'
    | (Raise e, w') => (Raise e, w')
    end.

(** [try: c  except Exception as e: h e] *)
Definition try_except {A} (c : Py A) (h : exn -> Py A) : Py A :=
  fun w =>
    match c w with
    | (Return a, w') => (Return a, w')
    | (Raise e, w') => h e w'
    end.

Definition record_log (r : log_record) (w : World) : World :=
  mkWorld (logs w ++ [r]) (calls w).

Definition record_call (c : lib_call) (w : World) : World :=
  mkWorld (logs w) (calls w ++ [c]).

(** [logger.<level>(msg)] *)
Definition log (l : log_level) (m : string) : Py unit :=
  fun w => (Return tt, record_log (LogRecord l m) w).

(** A call into a library: the call is recorded, then the library's answer
    is returned or raised. *)
Definition call {A} (c : lib_call) (answer : exn + A) : Py A :=
  fun w =>
    match answer with
    | inr a => (Return a, record_call c w)
    | inl e => (Raise e, record_call c w)
    end.

(** The comparisons of encodings made so far. *)
Definition is_comparison (c : lib_call) : bool :=
  match c with call_face_distance _ _ => true | _ => false end.

Definition comparisons (w : World) : list lib_call :=
  filter is_comparison (calls w).

Declare Scope py_scope.
Delimit Scope py_scope with py.
Notation "x <- c ;; k" := (bind c (fun x => k))
  (at level 61, c at next level, right associativity) : py_scope.
Notation "c ;;; k" := (bind c (fun _ => k))
  (at level 61, right associativity) : py_scope.
Local Open Scope py_scope.

(** String concatenation, as in an f-string. *)
Infix "+++" := String.append (at level 60, right associativity).

(** [str(n)] for a length. *)
Definition str_nat (n : nat) : string := NilEmpty.string_of_uint (Nat.to_uint n).

(** [str(b)] for a boolean. *)
Definition str_bool (b : bool) : string := if b then "True" else "False".

(** [needle in haystack] on strings. *)
Fixpoint contains (needle haystack : string) : bool :=
  String.prefix needle haystack
  || match haystack with
     | EmptyString => false
     | String _ rest => contains needle rest
     end.

(** ** The service *)

Section Service.

(** A decoded PIL image and a numpy pixel array. *)
Variables pil_image image_array : Type.

(** PIL, imported unconditionally. *)
Record PIL : Type := {
  Image_open : list Byte.byte -> exn + pil_image;
  mode : pil_image -> string;
  convert : pil_image -> string -> exn + pil_image
}.

(** face_recognition and numpy, imported together under [try]. *)
Record Libraries : Type := {
  np_array : pil_image -> exn + image_array;
  load_image_file : string -> exn + image_array;
  face_locations : image_array -> string -> exn + list face_location;
  face_encodings :
    image_array -> list face_location -> string -> exn + list encoding;
  face_distance : list encoding -> encoding -> exn + list float
}.

Variable Image : PIL.

(** [Some] when the guarded import succeeded, [None] when it raised
    ImportError and the module names were bound to [None]. *)
Variable face_recognition : option Libraries.

(** [format(x, ".3f")] *)
Variable format_3f : float -> string.

Definition FACE_RECOGNITION_AVAILABLE : bool :=
  match face_recognition with Some _ => true | None => false end.

(** An instance: [RECOGNITION_THRESHOLD] is the class attribute, read
    through [self]; [encoding_model] is set by [__init__]. *)
Record FaceRecognitionService : Type := {
  RECOGNITION_THRESHOLD : float;
  encoding_model : string
}.

(** [__init__]; the argument is [settings.FACE_RECOGNITION_MODEL] when the
    settings define it.  The threshold is the one of the class body. *)
Definition init (settings_model : option string)
  : Py FaceRecognitionService :=
  (if negb FACE_RECOGNITION_AVAILABLE
   then log WARNING
          "Face recognition libraries not available. Please install them."
   else ret tt) ;;;
  ret {| RECOGNITION_THRESHOLD := 0.6%float;
         encoding_model := match settings_model with
                           | Some m => m
                           | None => "large"
                           end |}.

(** The distance [compare_faces] works with: what the library answers
    for the one known encoding, or the exception met on the way. *)
Definition distance_of (known_encoding unknown_encoding : encoding)
  : exn + float :=
  match face_recognition with
  | None =>
      inl (Exception "AttributeError"
             "'NoneType' object has no attribute 'face_distance'")
  | Some L =>
      match face_distance L [known_encoding] unknown_encoding with
      | inl e => inl e
      | inr [] =>
          inl (Exception "IndexError"
                 "index 0 is out of bounds for axis 0 with size 0")
      | inr (d :: _) => inr d
      end
  end.

(** The pair [compare_faces] answers, read off the distance. *)
Definition compare_outcome (self : FaceRecognitionService)
    (known_encoding unknown_encoding : encoding) : bool * float :=
  match distance_of known_encoding unknown_encoding with
  | inr d => ((d <=? RECOGNITION_THRESHOLD self)%float, (1 - d)%float)
  | inl _ => (false, 0%float)
  end.

(** Attribute access on a module name that may be bound to [None]. *)
Definition module_attr (attr : string) : Py Libraries :=
  match face_recognition with
  | Some L => ret L
  | None =>
      raise (Exception "AttributeError"
               ("'NoneType' object has no attribute '" +++ attr +++ "'"))
  end.

(** The image loading at the head of [extract_face_encoding]. *)
Definition load_image (L : Libraries) (f : image_file) : Py image_array :=
  match f with
  | InMemoryUploadedFile image_data =>
      image <- call (call_Image_open image_data) (Image_open Image image_data) ;;
      image <- (if String.eqb (mode Image image) "RGBA"
                then call call_convert (convert Image image "RGB")
                else ret image) ;;
      call call_np_array (np_array L image)
  | FilePath path =>
      call (call_load_image_file path) (load_image_file L path)
  end.

(** The body of the [try] of [extract_face_encoding]. *)
Definition extract_face_encoding_body (L : Libraries)
    (self : FaceRecognitionService) (f : image_file)
  : Py (option encoding * string) :=
  image_array <- load_image L f ;;
  locations <- call (call_face_locations (encoding_model self))
                 (face_locations L image_array (encoding_model self)) ;;
  match locations with
  | [] => ret (None, "No face detected in the image")
  | _ :: _ =>
      (if (1 <? length locations)%nat
       then log WARNING ("Multiple faces detected ("
                         +++ str_nat (length locations)
                         +++ "), using the first one")
       else ret tt) ;;;
      encodings <- call (call_face_encodings locations (encoding_model self))
                     (face_encodings L image_array locations
                        (encoding_model self)) ;;
      match encodings with
      | [] => ret (None, "Could not generate face encoding")
      | first :: _ => ret (Some first, "")
      end
  end.

Definition extract_face_encoding (self : FaceRecognitionService)
    (f : image_file) : Py (option encoding * string) :=
  match face_recognition with
  | None => ret (None, "Face recognition libraries not installed")
  | Some L =>
      try_except (extract_face_encoding_body L self f)
        (fun e =>
           let error_msg := "Error processing image: " +++ str_exn e in
           log ERROR error_msg ;;;
           ret (None, error_msg))
  end.

(** [a[0]] on the array of distances. *)
Definition subscript0 (a : list float) : Py float :=
  match a with
  | d :: _ => ret d
  | [] => raise (Exception "IndexError"
                   "index 0 is out of bounds for axis 0 with size 0")
  end.

(** The body of the [try] of [compare_faces]. *)
Definition compare_faces_body (self : FaceRecognitionService)
    (known_encoding unknown_encoding : encoding) : Py (bool * float) :=
  L <- module_attr "face_distance" ;;
  distances <- call (call_face_distance [known_encoding] unknown_encoding)
                 (face_distance L [known_encoding] unknown_encoding) ;;
  distance <- subscript0 distances ;;
  let confidence_score := (1 - distance)%float in
  let is_match := (distance <=? RECOGNITION_THRESHOLD self)%float in
  log INFO ("Face comparison: distance=" +++ format_3f distance
            +++ ", confidence=" +++ format_3f confidence_score
            +++ ", match=" +++ str_bool is_match) ;;;
  ret (is_match, confidence_score).

Definition compare_faces (self : FaceRecognitionService)
    (known_encoding unknown_encoding : encoding) : Py (bool * float) :=
  try_except (compare_faces_body self known_encoding unknown_encoding)
    (fun e =>
       let error_msg := "Error comparing faces: " +++ str_exn e in
       log ERROR error_msg ;;;
       ret (false, 0%float)).

Definition verify_face (self : FaceRecognitionService)
    (staff_photo_path : string) (uploaded_photo : image_file)
  : Py (bool * float * string) :=
  try_except
    (staff <- extract_face_encoding self (FilePath staff_photo_path) ;;
     match staff with
     | (None, staff_error) =>
         ret (false, 0%float, "Staff photo error: " +++ staff_error)
     | (Some staff_encoding, _) =>
         uploaded <- extract_face_encoding self uploaded_photo ;;
         match uploaded with
         | (None, uploaded_error) =>
             ret (false, 0%float, "Uploaded photo error: " +++ uploaded_error)
         | (Some uploaded_encoding, _) =>
             r <- compare_faces self staff_encoding uploaded_encoding ;;
             ret (fst r, snd r, "")
         end
     end)
    (fun e =>
       let error_msg := "Face verification failed: " +++ str_exn e in
       log ERROR error_msg ;;;
       ret (false, 0%float, error_msg)).

(** The [for] loop of [batch_verify_faces], [results] being the list
    built so far. *)
Fixpoint batch_verify_loop (self : FaceRecognitionService)
    (uploaded_encoding : encoding)
    (staff_encodings : list (string * encoding))
    (results : list (string * bool * float))
  : Py (list (string * bool * float)) :=
  match staff_encodings with
  | [] => ret results
  | (staff_id, staff_encoding) :: rest =>
      results' <-
        try_except
          (r <- compare_faces self staff_encoding uploaded_encoding ;;
           ret (results ++ [(staff_id, fst r, snd r)]))
          (fun e =>
             log ERROR ("Error comparing with staff " +++ staff_id +++ ": "
                        +++ str_exn e) ;;;
             ret (results ++ [(staff_id, false, 0%float)])) ;;
      batch_verify_loop self uploaded_encoding rest results'
  end.

(** The entry of the batch answer for one staff member, read off the
    distance. *)
Definition batch_entry (self : FaceRecognitionService)
    (uploaded_encoding : encoding) (p : string * encoding)
  : string * bool * float :=
  (fst p,
   fst (compare_outcome self (snd p) uploaded_encoding),
   snd (compare_outcome self (snd p) uploaded_encoding)).

Definition batch_verify_faces (self : FaceRecognitionService)
    (staff_encodings : list (string * encoding))
    (uploaded_photo : image_file)
  : Py (list (string * bool * float)) :=
  uploaded <- extract_face_encoding self uploaded_photo ;;
  match uploaded with
  | (None, _) =>
      ret (map (fun p => (fst p, false, 0%float)) staff_encodings)
  | (Some uploaded_encoding, _) =>
      batch_verify_loop self uploaded_encoding staff_encodings []
  end.

End Service.

Arguments Image_open {pil_image} _ _.
Arguments mode {pil_image} _ _.
Arguments convert {pil_image} _ _ _.
Arguments np_array {pil_image image_array} _ _.
Arguments load_image_file {pil_image image_array} _ _.
Arguments face_locations {pil_image image_array} _ _ _.
Arguments face_encodings {pil_image image_array} _ _ _ _.
Arguments face_distance {pil_image image_array} _ _ _.
Arguments init {pil_image image_array} face_recognition settings_model _.
Arguments distance_of {pil_image image_array} face_recognition known_encoding unknown_encoding.
Arguments compare_outcome {pil_image image_array} face_recognition self known_encoding unknown_encoding.
Arguments load_image {pil_image image_array} Image L f _.
Arguments extract_face_encoding_body {pil_image image_array} Image L self f _.
Arguments extract_face_encoding {pil_image image_array} Image face_recognition self f _.
Arguments compare_faces_body {pil_image image_array} face_recognition format_3f self known_encoding unknown_encoding _.
Arguments compare_faces {pil_image image_array} face_recognition format_3f self known_encoding unknown_encoding _.
Arguments verify_face {pil_image image_array} Image face_recognition format_3f self staff_photo_path uploaded_photo _.
Arguments batch_verify_loop {pil_image image_array} face_recognition format_3f self uploaded_encoding staff_encodings results _.
Arguments batch_entry {pil_image image_array} face_recognition self uploaded_encoding p.
Arguments batch_verify_faces {pil_image image_array} Image face_recognition format_3f self staff_encodings uploaded_photo _.

(** The library call a comparison with one known encoding makes. *)
Definition comparison_call (uploaded_encoding : encoding)
    (p : string * encoding) : lib_call :=
  call_face_distance [snd p] uploaded_encoding.

(** The side of a verification a message of [verify_face] speaks of. *)
Inductive side : Type := Staff | Uploaded.

Definition side_prefix (s : side) : string :=
  match s with
  | Staff => "Staff photo error: "
  | Uploaded => "Uploaded photo error: "
  end.

(** A fault met by [verify_face] while it extracts an encoding: the [try]
    of [extract_face_encoding] raises on the staff photo, or the staff
    photo gives an encoding and the [try] raises on the uploaded photo. *)
Inductive extraction_fault {pil_image image_array : Type}
    (Image : PIL pil_image) (L : Libraries pil_image image_array)
    (self : FaceRecognitionService) (staff_photo_path : string)
    (uploaded_photo : image_file) (w : World) : side -> exn -> Prop :=
| fault_on_staff_photo (e : exn) (w1 : World) :
    extract_face_encoding_body Image L self (FilePath staff_photo_path) w
    = (Raise e, w1) ->
    extraction_fault Image L self staff_photo_path uploaded_photo w Staff e
| fault_on_uploaded_photo (staff_encoding : encoding) (msg : string)
    (e : exn) (w1 w2 : World) :
    extract_face_encoding Image (Some L) self (FilePath staff_photo_path) w
    = (Return (Some staff_encoding, msg), w1) ->
    extract_face_encoding_body Image L self uploaded_photo w1
    = (Raise e, w2) ->
    extraction_fault Image L self staff_photo_path uploaded_photo w
      Uploaded e.

(** ** The status the view derives from the answer of [verify_face]
       ([verify/views.py], "Determine status") *)

Inductive status : Type := no_face | error | success | failed.

Definition determine_status (is_match : bool) (error_message : string)
  : status :=
  if negb (String.eqb error_message "")
  then if contains "No face detected" error_message then no_face else error
  else if is_match then success else failed.

(** ** The distance of the face_recognition library

    [face_distance(face_encodings, face_to_compare)] is documented as the
    Euclidean distance of each known encoding to the one compared, that is
    [np.linalg.norm(face_encodings - face_to_compare, axis=1)], on an empty
    list the empty array.  It is written out here for a list of rows and
    one vector, with numpy's broadcasting rule for the subtraction. *)

(** numpy's [a - b] on a row and a vector: equal lengths, or one of
    length 1 stretched to the other. *)
Definition subtract (a b : encoding) : exn + encoding :=
  if (length a =? length b)%nat
  then inr (map (fun p => (fst p - snd p)%float) (combine a b))
  else match a, b with
       | [x], _ => inr (map (fun y => (x - y)%float) b)
       | _, [y] => inr (map (fun x => (x - y)%float) a)
       | _, _ =>
           inl (Exception "ValueError"
                  ("operands could not be broadcast together with shapes (1,"
                   +++ str_nat (length a) +++ ") ("
                   +++ str_nat (length b) +++ ",) "))
       end.

Definition norm (v : encoding) : float :=
  PrimFloat.sqrt (fold_left (fun acc x => (acc + x * x)%float) v 0%float).

Fixpoint euclidean_distances (knowns : list encoding) (unknown : encoding)
  : exn + list float :=
  match knowns with
  | [] => inr []
  | k :: rest =>
      match subtract k unknown with
      | inl e => inl e
      | inr v =>
          match euclidean_distances rest unknown with
          | inl e => inl e
          | inr ds => inr (norm v :: ds)
          end
      end
  end.

(** A number that is neither NaN nor an infinity. *)
Definition finite (x : float) : Prop := PrimFloat.is_finite x = true.

(** ** A sample installation

    A small, executable stand-in for the libraries, on which the service
    can be run: a picture is the list of the faces it shows, each with its
    location and its encoding, in the order the detector reports them; the
    photo album plays the file system, and uploaded bytes are decoded by
    looking their text up in the album.  The distance is the Euclidean norm
    of the difference, computed with numpy's broadcasting rule. *)

Module Sample.

Definition picture : Type := list (face_location * encoding).

Definition pil_image : Type := (string * picture)%type.

Definition loc_eqb (a b : face_location) : bool :=
  let '(t1, r1, b1, l1) := a in
  let '(t2, r2, b2, l2) := b in
  (t1 =? t2)%Z && (r1 =? r2)%Z && (b1 =? b2)%Z && (l1 =? l2)%Z.

Definition encode_region (pic : picture) (loc : face_location) : encoding :=
  match find (fun p => loc_eqb (fst p) loc) pic with
  | Some p => snd p
  | None => []
  end.

Definition alice : encoding := [0.1; 0.2; 0.3]%float.
Definition alice_again : encoding := [0.1; 0.25; 0.3]%float.
Definition bob : encoding := [0.9; 0.1; 0.8]%float.
Definition short : encoding := [0.1; 0.2]%float.

Definition album : list (string * pil_image) :=
  [ ("alice.jpg", ("RGB", [((10, 50, 50, 10)%Z, alice)]));
    ("alice2.png", ("RGBA", [((12, 52, 52, 12)%Z, alice_again)]));
    ("bob.jpg", ("RGB", [((20, 60, 60, 20)%Z, bob)]));
    ("wall.jpg", ("RGB", []));
    ("group.jpg", ("RGB", [((20, 60, 60, 20)%Z, bob);
                           ((10, 150, 50, 110)%Z, alice)]));
    ("short.jpg", ("RGB", [((10, 50, 50, 10)%Z, short)])) ].

Fixpoint lookup (name : string) (l : list (string * pil_image))
  : option pil_image :=
  match l with
  | [] => None
  | (n, p) :: rest => if String.eqb n name then Some p else lookup name rest
  end.

Definition Image : PIL pil_image := {|
  Image_open := fun image_data =>
    match lookup (string_of_list_byte image_data) album with
    | Some p => inr p
    | None => inl (Exception "UnidentifiedImageError"
                     "cannot identify image file")
    end;
  mode := fun p => fst p;
  convert := fun p m => inr (m, snd p)
|}.

Definition libraries : Libraries pil_image picture := {|
  np_array := fun p => inr (snd p);
  load_image_file := fun path =>
    match lookup path album with
    | Some p => inr (snd p)
    | None => inl (Exception "FileNotFoundError"
                     ("[Errno 2] No such file or directory: '" +++ path +++ "'"))
    end;
  face_locations := fun pic _ => inr (map fst pic);
  face_encodings := fun pic locs _ => inr (map (encode_region pic) locs);
  face_distance := euclidean_distances
|}.

(** A coarse stand-in for [format(x, ".3f")]: the sign of the number. *)
Definition format_3f (x : float) : string :=
  if (x <? 0)%float then "-" else "+".

(** The global instance, [FaceRecognitionService()], without a model in
    the settings. *)
Definition face_recognition_service : FaceRecognitionService :=
  {| RECOGNITION_THRESHOLD := 0.6%float; encoding_model := "large" |}.

(** The same service with another threshold. *)
Definition with_threshold (t : float) : FaceRecognitionService :=
  {| RECOGNITION_THRESHOLD := t; encoding_model := "large" |}.

Definition upload (name : string) : image_file :=
  InMemoryUploadedFile (list_byte_of_string name).

End Sample.


(** The value of a computation is the same in every world. *)
Definition world_blind {A} (c : Py A) : Prop :=
  forall w w', fst (c w) = fst (c w').

(** ** The rest of the service: [get_face_locations] *)

Section FaceLocations.

Context {pil_image image_array : Type}.
Variable Image : PIL pil_image.
Variable face_recognition : option (Libraries pil_image image_array).

(** The image loading at the head of [get_face_locations].  No test of
    [FACE_RECOGNITION_AVAILABLE] guards it: the names [np] and
    [face_recognition] are looked up when the run reaches them, after PIL
    has opened an uploaded file. *)
Definition load_image_unguarded (f : image_file) : Py image_array :=
  match f with
  | InMemoryUploadedFile image_data =>
      image <- call (call_Image_open image_data) (Image_open Image image_data) ;;
      image <- (if String.eqb (mode Image image) "RGBA"
                then call call_convert (convert Image image "RGB")
                else ret image) ;;
      L <- module_attr _ _ face_recognition "array" ;;
      call call_np_array (np_array L image)
  | FilePath path =>
      L <- module_attr _ _ face_recognition "load_image_file" ;;
      call (call_load_image_file path) (load_image_file L path)
  end.

Definition get_face_locations (self : FaceRecognitionService)
    (f : image_file) : Py (list face_location) :=
  try_except
    (image_array <- load_image_unguarded f ;;
     L <- module_attr _ _ face_recognition "face_locations" ;;
     call (call_face_locations (encoding_model self))
       (face_locations L image_array (encoding_model self)))
    (fun e =>
       log ERROR ("Error getting face locations: " +++ str_exn e) ;;;
       ret []).

End FaceLocations.

(** ** The view: the helpers and the record of [FaceVerificationAPI.post]
       ([verify/views.py]) *)

(** [d.get(key)] on a dictionary of strings. *)
Fixpoint dict_get (d : list (string * string)) (key : string)
  : option string :=
  match d with
  | [] => None
  | (k, v) :: rest => if String.eqb k key then Some v else dict_get rest key
  end.

(** [s.split(sep)] for a separator of one character. *)
Fixpoint split (sep : ascii) (s : string) : list string :=
  match s with
  | EmptyString => [EmptyString]
  | String c rest =>
      if Ascii.eqb c sep then EmptyString :: split sep rest
      else match split sep rest with
           | head :: tail => String c head :: tail
           | [] => [String c EmptyString]
           end
  end.

(** [get_client_ip(request)], on [request.META]. *)
Definition get_client_ip (META : list (string * string)) : option string :=
  let x_forwarded_for := dict_get META "HTTP_X_FORWARDED_FOR" in
  match x_forwarded_for with
  | Some (String c rest) => Some (hd "" (split "," (String c rest)))
  | _ => dict_get META "REMOTE_ADDR"
  end.

(** The message of the answer ("Determine status"). *)
Definition determine_message (staff_name : string) (is_match : bool)
    (error_message : string) : string :=
  if negb (String.eqb error_message "")
  then if contains "No face detected" error_message
       then "No face detected in the uploaded photo"
       else "Face processing failed"
  else if is_match
       then "Face verified successfully! Welcome, " +++ staff_name +++ "!"
       else "Face verification failed - no match found".

(** The fields of the [VerificationAttempt] the view creates that come
    from the answer of [verify_face]. *)
Record VerificationAttempt : Type := {
  attempt_status : status;
  attempt_confidence_score : option float;
  attempt_error_message : string
}.

Definition create_attempt (answer : bool * float * string)
  : VerificationAttempt :=
  let '(is_match, confidence_score, error_message) := answer in
  {| attempt_status := determine_status is_match error_message;
     attempt_confidence_score :=
       if (0 <? confidence_score)%float then Some confidence_score else None;
     attempt_error_message := error_message |}.

(** More of the sample installation: an encoding with a component that is
    not a number, and the headers of two requests. *)
Module Sample2.

Definition broken : encoding := [0.1; nan; 0.3]%float.

Definition proxied : list (string * string) :=
  [("REMOTE_ADDR", "10.0.0.1");
   ("HTTP_X_FORWARDED_FOR", "203.0.113.7, 70.41.3.18,150.172.238.178")].

Definition direct : list (string * string) :=
  [("REMOTE_ADDR", "192.0.2.44"); ("HTTP_X_FORWARDED_FOR", "")].

End Sample2.

(** * Properties *)

(** ** Facts on binary64 numbers *)

Lemma SFleb_trans (x y z : spec_float) :
  SFleb x y = true -> SFleb y z = true -> SFleb x z = true.
Proof.
  unfold SFleb, SFcompare.
  destruct x as [sx|sx| |sx mx ex], y as [sy|sy| |sy my ey],
           z as [sz|sz| |sz mz ez];
    try discriminate; try reflexivity;
    repeat match goal with s : bool |- _ => destruct s end;
    try discriminate; try reflexivity.
  all: change (Pos.compare_cont Eq) with Pos.compare.
  all: destruct (Z.compare_spec ex ey), (Z.compare_spec ey ez),
         (Z.compare_spec ex ez); try discriminate; try reflexivity; try lia.
  all: destruct (Pos.compare_spec mx my), (Pos.compare_spec my mz),
         (Pos.compare_spec mx mz);
       simpl; try discriminate; try reflexivity; try lia.
Qed.

Lemma leb_trans (x y z : float) :
  (x <=? y)%float = true -> (y <=? z)%float = true -> (x <=? z)%float = true.
Proof. rewrite !leb_spec. apply SFleb_trans. Qed.

Lemma finite_spec (x : float) :
  finite x ->
  (exists s, Prim2SF x = S754_zero s)
  \/ (exists s m e, Prim2SF x = S754_finite s m e).
Proof.
  unfold finite, is_finite, is_nan, is_infinity.
  rewrite !eqb_spec, abs_spec.
  destruct (Prim2SF x) as [s|s| |s m e]; eauto.
  - destruct s; vm_compute; discriminate.
  - vm_compute. discriminate.
Qed.

Lemma sub_diag (x : float) : finite x -> (x - x)%float = 0%float.
Proof.
  intros H. apply Prim2SF_inj. rewrite sub_spec.
  destruct (finite_spec x H) as [[s ->] | (s & m & e & ->)].
  - destruct s; reflexivity.
  - unfold SF64sub, SFsub. rewrite Z.min_id.
    unfold shl_align. rewrite Z.sub_diag. reflexivity.
Qed.

(** ** The Euclidean distance of a vector to itself *)

Lemma subtract_diag (a : encoding) :
  Forall finite a -> subtract a a = inr (repeat 0%float (length a)).
Proof.
  intros H. unfold subtract. rewrite Nat.eqb_refl. f_equal.
  induction H as [|x a Hx _ IH]; simpl; [reflexivity|].
  rewrite (sub_diag x Hx), IH. reflexivity.
Qed.

Lemma norm_zeros (n : nat) : norm (repeat 0%float n) = 0%float.
Proof.
  unfold norm.
  assert (E : fold_left (fun acc x => (acc + x * x)%float)
                (repeat 0%float n) 0%float = 0%float)
    by (induction n; simpl; auto).
  rewrite E. reflexivity.
Qed.

Lemma euclidean_distances_diag (a : encoding) :
  Forall finite a -> euclidean_distances [a] a = inr [0%float].
Proof.
  intros H. simpl. rewrite (subtract_diag a H), norm_zeros. reflexivity.
Qed.

(** ** Strings *)

Lemma prefix_refl (s : string) : String.prefix s s = true.
Proof.
  induction s as [|c s IH]; simpl; [reflexivity|].
  destruct (ascii_dec c c); [exact IH | congruence].
Qed.

Lemma contains_append (p s : string) : contains s (p +++ s) = true.
Proof.
  induction p as [|c p IH].
  - change ("" +++ s) with s.
    destruct s as [|a s]; [reflexivity|].
    cbn [contains]. rewrite prefix_refl. reflexivity.
  - change (String c p +++ s) with (String c (p +++ s)).
    cbn [contains]. rewrite IH. apply orb_true_r.
Qed.

Lemma append_nonempty (c : ascii) (p s : string) : String c p +++ s <> "".
Proof. simpl. discriminate. Qed.

(** ** The world along a run *)

Lemma comparisons_record_log (r : log_record) (w : World) :
  comparisons (record_log r w) = comparisons w.
Proof. reflexivity. Qed.

Lemma comparisons_record_call (c : lib_call) (w : World) :
  comparisons (record_call c w)
  = comparisons w ++ (if is_comparison c then [c] else []).
Proof.
  unfold comparisons, record_call. simpl. rewrite filter_app. simpl.
  destruct (is_comparison c); reflexivity.
Qed.

(** Unfolding of the monad, one construct at a time. *)
Ltac py_unfold :=
  unfold module_attr, subscript0;
  unfold bind, try_except, ret, raise, log, call;
  cbv beta iota zeta.

Ltac same_comparisons :=
  cbn [snd fst];
  repeat first
    [ rewrite comparisons_record_log
    | rewrite comparisons_record_call; cbn [is_comparison];
      rewrite app_nil_r ];
  try reflexivity.

Section Facts.

Context {pil_image image_array : Type}.
Variable Image : PIL pil_image.
Variable format_3f : float -> string.

Implicit Types (L : Libraries pil_image image_array)
  (fr : option (Libraries pil_image image_array))
  (self : FaceRecognitionService) (w : World).

(** *** [compare_faces] *)

Lemma compare_faces_value fr self known unknown w :
  fst (compare_faces fr format_3f self known unknown w)
  = Return (compare_outcome fr self known unknown).
Proof.
  unfold compare_faces, compare_faces_body, compare_outcome, distance_of.
  py_unfold.
  destruct fr as [L|]; [|reflexivity].
  destruct (face_distance L [known] unknown) as [e|[|d ds]]; reflexivity.
Qed.

Lemma compare_faces_run fr self known unknown w :
  exists w',
    compare_faces fr format_3f self known unknown w
    = (Return (compare_outcome fr self known unknown), w').
Proof.
  pose proof (compare_faces_value fr self known unknown w) as H.
  destruct (compare_faces fr format_3f self known unknown w) as [r w'].
  simpl in H. subst r. now exists w'.
Qed.

(** *** [extract_face_encoding] *)

Lemma load_image_comparisons L f w :
  comparisons (snd (load_image Image L f w)) = comparisons w.
Proof.
  unfold load_image. py_unfold.
  destruct f as [image_data|path].
  - destruct (Image_open Image image_data) as [e|image];
      [same_comparisons|].
    destruct (String.eqb (mode Image image) "RGBA").
    + destruct (convert Image image "RGB") as [e|image'];
        [same_comparisons|].
      destruct (np_array L image'); same_comparisons.
    + destruct (np_array L image); same_comparisons.
  - destruct (load_image_file L path); same_comparisons.
Qed.

Lemma extract_face_encoding_body_comparisons L self f w :
  comparisons (snd (extract_face_encoding_body Image L self f w))
  = comparisons w.
Proof.
  unfold extract_face_encoding_body, bind at 1.
  pose proof (load_image_comparisons L f w) as H.
  destruct (load_image Image L f w) as [[img|e] w1]; simpl in H;
    [|exact H].
  py_unfold. rewrite <- H.
  destruct (face_locations L img (encoding_model self)) as [e|[|l ls]];
    try same_comparisons.
  destruct (1 <? length (l :: ls))%nat;
    destruct (face_encodings L img (l :: ls) (encoding_model self))
      as [e|[|enc encs]]; same_comparisons.
Qed.

Lemma extract_face_encoding_returns fr self f w :
  exists r w', extract_face_encoding Image fr self f w = (Return r, w').
Proof.
  unfold extract_face_encoding.
  destruct fr as [L|]; [|unfold ret; eauto].
  unfold try_except.
  destruct (extract_face_encoding_body Image L self f w) as [[r|e] w1];
    [eauto|].
  py_unfold. eauto.
Qed.

Lemma extract_face_encoding_comparisons fr self f w :
  comparisons (snd (extract_face_encoding Image fr self f w))
  = comparisons w.
Proof.
  unfold extract_face_encoding.
  destruct fr as [L|]; [|reflexivity].
  unfold try_except.
  pose proof (extract_face_encoding_body_comparisons L self f w) as H.
  destruct (extract_face_encoding_body Image L self f w) as [[r|e] w1];
    simpl in H; [exact H|].
  py_unfold. same_comparisons. exact H.
Qed.

(** When no face is located. *)
Lemma extract_face_encoding_no_face L self f img w w1 :
  load_image Image L f w = (Return img, w1) ->
  face_locations L img (encoding_model self) = inr [] ->
  extract_face_encoding Image (Some L) self f w
  = (Return (None, "No face detected in the image"),
     record_call (call_face_locations (encoding_model self)) w1).
Proof.
  intros Hload Hloc.
  unfold extract_face_encoding, try_except, extract_face_encoding_body,
    bind at 1.
  rewrite Hload. py_unfold. rewrite Hloc. reflexivity.
Qed.

(** When the body of the [try] raises. *)
Lemma extract_face_encoding_fault L self f e w w1 :
  extract_face_encoding_body Image L self f w = (Raise e, w1) ->
  extract_face_encoding Image (Some L) self f w
  = (Return (None, "Error processing image: " +++ str_exn e),
     record_log (LogRecord ERROR ("Error processing image: " +++ str_exn e))
       w1).
Proof.
  intros H. unfold extract_face_encoding, try_except. rewrite H.
  reflexivity.
Qed.

(** *** The loop of [batch_verify_faces] *)

Lemma compare_faces_comparisons fr self known unknown w :
  comparisons (snd (compare_faces fr format_3f self known unknown w))
  = comparisons w
    ++ match fr with
       | Some _ => [call_face_distance [known] unknown]
       | None => []
       end.
Proof.
  unfold compare_faces, compare_faces_body. py_unfold.
  destruct fr as [L|]; [|cbn [snd]; rewrite comparisons_record_log;
                         symmetry; apply app_nil_r].
  destruct (face_distance L [known] unknown) as [e|[|d ds]];
    cbn [snd]; rewrite comparisons_record_log, comparisons_record_call;
    reflexivity.
Qed.

Lemma batch_verify_loop_run fr self uploaded staff :
  forall results w,
  exists w',
    batch_verify_loop fr format_3f self uploaded staff results w
    = (Return (results ++ map (batch_entry fr self uploaded) staff), w')
    /\ comparisons w'
       = comparisons w
         ++ match fr with
            | Some _ => map (comparison_call uploaded) staff
            | None => []
            end.
Proof.
  induction staff as [|[staff_id staff_encoding] rest IH];
    intros results w.
  - exists w. simpl. unfold ret. rewrite !app_nil_r.
    destruct fr; rewrite ?app_nil_r; auto.
  - cbn [batch_verify_loop]. unfold bind at 1, try_except, bind at 1.
    pose proof
      (compare_faces_comparisons fr self staff_encoding uploaded w) as Hc.
    destruct (compare_faces_run fr self staff_encoding uploaded w)
      as [w1 E].
    rewrite E in *. cbn [snd] in Hc. unfold ret at 1.
    destruct (IH (results ++ [(staff_id,
                     fst (compare_outcome fr self staff_encoding uploaded),
                     snd (compare_outcome fr self staff_encoding uploaded))])
                w1) as (w' & Hrun & Hcmp).
    exists w'. split.
    + rewrite Hrun. rewrite <- app_assoc. reflexivity.
    + rewrite Hcmp, Hc. rewrite <- app_assoc.
      destruct fr; reflexivity.
Qed.

End Facts.

(** ** The matcher *)

(** C1. When the library yields a distance [d] for the pair,
    [compare_faces] answers the confidence [1 - d] and the match
    [d <= RECOGNITION_THRESHOLD]; and every instance that [__init__] builds
    has the threshold 0.6. *)
Theorem compare_faces_confidence_and_match :
  forall {pil_image image_array : Type}
    (L : Libraries pil_image image_array) (format_3f : float -> string)
    (self : FaceRecognitionService) (known unknown : encoding)
    (d : float) (ds : list float) (w : World),
    face_distance L [known] unknown = inr (d :: ds) ->
    (exists w',
       compare_faces (Some L) format_3f self known unknown w
       = (Return ((d <=? RECOGNITION_THRESHOLD self)%float, (1 - d)%float),
          w'))
    /\ (forall (fr : option (Libraries pil_image image_array))
          (settings_model : option string) (w0 : World),
         exists s w1,
           init fr settings_model w0 = (Return s, w1)
           /\ RECOGNITION_THRESHOLD s = 0.6%float).
Proof.
  intros pil_image image_array L format_3f self known unknown d ds w Hd.
  split.
  - destruct (compare_faces_run format_3f (Some L) self known unknown w)
      as [w' E].
    exists w'. rewrite E. unfold compare_outcome, distance_of.
    rewrite Hd. reflexivity.
  - intros fr settings_model w0. unfold init, FACE_RECOGNITION_AVAILABLE.
    destruct fr; py_unfold; cbn [negb]; eauto.
Qed.

Lemma compare_faces_confidence_and_match_witness :
  exists d w',
    face_distance Sample.libraries [Sample.alice] Sample.alice_again
    = inr [d]
    /\ compare_faces (Some Sample.libraries) Sample.format_3f
         Sample.face_recognition_service Sample.alice Sample.alice_again
         empty_world
       = (Return ((d <=? 0.6)%float, (1 - d)%float), w').
Proof.
  eexists.
  destruct (compare_faces_confidence_and_match Sample.libraries
              Sample.format_3f Sample.face_recognition_service
              Sample.alice Sample.alice_again _ [] empty_world
              eq_refl) as [[w' H] _].
  exists w'. split; [reflexivity | exact H].
Defined.

(** C6, as the code has it.  [compare_faces] has no failure path at all:
    for every pair of encodings, of equal dimension or not, it returns;
    when the distance cannot be had, whatever the exception, the answer is
    [(False, 0.0)]. *)
Theorem compare_faces_never_raises :
  forall {pil_image image_array : Type}
    (fr : option (Libraries pil_image image_array))
    (format_3f : float -> string) (self : FaceRecognitionService)
    (known unknown : encoding) (w : World),
  exists w',
    compare_faces fr format_3f self known unknown w
    = (Return
         match distance_of fr known unknown with
         | inr d => ((d <=? RECOGNITION_THRESHOLD self)%float, (1 - d)%float)
         | inl _ => (false, 0%float)
         end, w').
Proof.
  intros. apply (compare_faces_run format_3f fr self known unknown w).
Qed.

(** C6, as stated, fails: on encodings of dimensions 3 and 2 the library
    raises ValueError, and [compare_faces] signals nothing, it returns
    [(False, 0.0)]. *)
Lemma compare_faces_mismatch_returns :
  length Sample.alice <> length Sample.short
  /\ (exists msg,
        face_distance Sample.libraries [Sample.alice] Sample.short
        = inl (Exception "ValueError" msg))
  /\ fst (compare_faces (Some Sample.libraries) Sample.format_3f
            Sample.face_recognition_service Sample.alice Sample.short
            empty_world)
     = Return (false, 0%float).
Proof.
  split; [simpl; discriminate|].
  split; [eexists; reflexivity | reflexivity].
Qed.

(** C7. With the library's Euclidean distance, an encoding all of whose
    components are finite is at distance exactly 0 from itself, and
    [compare_faces] answers a match, with confidence 1, for every
    threshold that is at least 0. *)
Theorem compare_faces_same_encoding :
  forall {pil_image image_array : Type}
    (L : Libraries pil_image image_array) (format_3f : float -> string)
    (self : FaceRecognitionService) (a : encoding) (w : World),
    face_distance L [a] a = euclidean_distances [a] a ->
    Forall finite a ->
    (0 <=? RECOGNITION_THRESHOLD self)%float = true ->
    distance_of (Some L) a a = inr 0%float
    /\ exists w',
         compare_faces (Some L) format_3f self a a w
         = (Return (true, 1%float), w').
Proof.
  intros pil_image image_array L format_3f self a w Hlib Hfin Hthr.
  assert (Hd : distance_of (Some L) a a = inr 0%float).
  { unfold distance_of.
    rewrite Hlib, (euclidean_distances_diag a Hfin). reflexivity. }
  split; [exact Hd|].
  destruct (compare_faces_run format_3f (Some L) self a a w) as [w' E].
  exists w'. rewrite E. unfold compare_outcome. rewrite Hd, Hthr.
  reflexivity.
Qed.

Lemma compare_faces_same_encoding_witness :
  distance_of (Some Sample.libraries) Sample.alice Sample.alice = inr 0%float
  /\ exists w',
       compare_faces (Some Sample.libraries) Sample.format_3f
         (Sample.with_threshold 0%float) Sample.alice Sample.alice
         empty_world
       = (Return (true, 1%float), w').
Proof.
  apply (compare_faces_same_encoding Sample.libraries Sample.format_3f
           (Sample.with_threshold 0%float) Sample.alice empty_world).
  - reflexivity.
  - repeat constructor.
  - reflexivity.
Defined.

(** C8. For a fixed pair of encodings the match is monotone in the
    threshold: a pair that matches at a threshold matches, with the same
    confidence, at every threshold at least as large. *)
Theorem is_match_monotone_in_threshold :
  forall {pil_image image_array : Type}
    (fr : option (Libraries pil_image image_array))
    (format_3f : float -> string) (self self' : FaceRecognitionService)
    (known unknown : encoding) (c : float) (w w1 : World),
    (RECOGNITION_THRESHOLD self <=? RECOGNITION_THRESHOLD self')%float
    = true ->
    compare_faces fr format_3f self known unknown w
    = (Return (true, c), w1) ->
    exists w2,
      compare_faces fr format_3f self' known unknown w
      = (Return (true, c), w2).
Proof.
  intros pil_image image_array fr format_3f self self' known unknown c w w1
    Hle Hrun.
  pose proof (compare_faces_value format_3f fr self known unknown w) as Hv.
  rewrite Hrun in Hv. cbn [fst] in Hv.
  destruct (compare_faces_run format_3f fr self' known unknown w)
    as [w2 E].
  exists w2. rewrite E. f_equal. f_equal.
  unfold compare_outcome in *.
  destruct (distance_of fr known unknown) as [e|d]; [discriminate|].
  injection Hv as Hm Hc. rewrite <- Hc.
  rewrite (leb_trans _ _ _ (eq_sym Hm) Hle). reflexivity.
Qed.

Lemma is_match_monotone_in_threshold_witness :
  exists w2,
    compare_faces (Some Sample.libraries) Sample.format_3f
      (Sample.with_threshold 0.9%float) Sample.alice Sample.alice
      empty_world
    = (Return (true, 1%float), w2).
Proof.
  apply (is_match_monotone_in_threshold (Some Sample.libraries)
           Sample.format_3f Sample.face_recognition_service
           (Sample.with_threshold 0.9%float) Sample.alice Sample.alice
           1%float empty_world
           (snd (compare_faces (Some Sample.libraries) Sample.format_3f
                   Sample.face_recognition_service Sample.alice
                   Sample.alice empty_world))).
  - reflexivity.
  - reflexivity.
Defined.

(** Raising the threshold can turn a pair that does not match into one
    that does. *)
Example raising_threshold_can_match :
  fst (compare_outcome (Some Sample.libraries)
         Sample.face_recognition_service Sample.bob Sample.alice) = false
  /\ fst (compare_outcome (Some Sample.libraries)
            (Sample.with_threshold 1.5%float) Sample.bob Sample.alice)
     = true.
Proof. split; reflexivity. Qed.

(** ** The orchestrator: [verify_face] *)

(** C2. When the staff photo loads and no face is located in it,
    [verify_face] answers the staff-side no-face message, which the view
    files under [no_face], whatever the uploaded photo is: the uploaded
    photo is not even opened, the only calls made are the two on the staff
    photo. *)
Theorem verify_face_no_face_in_staff_photo :
  forall {pil_image image_array : Type} (Image : PIL pil_image)
    (L : Libraries pil_image image_array) (format_3f : float -> string)
    (self : FaceRecognitionService) (staff_photo_path : string)
    (uploaded_photo : image_file) (img : image_array) (w : World),
    load_image_file L staff_photo_path = inr img ->
    face_locations L img (encoding_model self) = inr [] ->
    verify_face Image (Some L) format_3f self staff_photo_path
      uploaded_photo w
    = (Return (false, 0%float,
               "Staff photo error: No face detected in the image"),
       record_call (call_face_locations (encoding_model self))
         (record_call (call_load_image_file staff_photo_path) w))
    /\ determine_status false
         "Staff photo error: No face detected in the image" = no_face.
Proof.
  intros pil_image image_array Image L format_3f self staff_photo_path
    uploaded_photo img w Hload Hloc.
  split; [|reflexivity].
  unfold verify_face, try_except, bind at 1.
  rewrite (extract_face_encoding_no_face Image L self
             (FilePath staff_photo_path) img w
             (record_call (call_load_image_file staff_photo_path) w)).
  - reflexivity.
  - unfold load_image, call. rewrite Hload. reflexivity.
  - exact Hloc.
Qed.

Lemma verify_face_no_face_in_staff_photo_witness :
  verify_face Sample.Image (Some Sample.libraries) Sample.format_3f
    Sample.face_recognition_service "wall.jpg" (Sample.upload "wall.jpg")
    empty_world
  = (Return (false, 0%float,
             "Staff photo error: No face detected in the image"),
     mkWorld [] [call_load_image_file "wall.jpg";
                 call_face_locations "large"])
  /\ determine_status false
       "Staff photo error: No face detected in the image" = no_face.
Proof.
  apply (verify_face_no_face_in_staff_photo Sample.Image Sample.libraries
           Sample.format_3f Sample.face_recognition_service "wall.jpg"
           (Sample.upload "wall.jpg") [] empty_world).
  - reflexivity.
  - reflexivity.
Defined.

(** C10. [verify_face] always returns, and an answer that carries a
    message carries no match and the confidence 0.0. *)
Theorem verify_face_message_means_no_match :
  forall {pil_image image_array : Type} (Image : PIL pil_image)
    (fr : option (Libraries pil_image image_array))
    (format_3f : float -> string) (self : FaceRecognitionService)
    (staff_photo_path : string) (uploaded_photo : image_file) (w : World),
  exists is_match confidence_score error_message w',
    verify_face Image fr format_3f self staff_photo_path uploaded_photo w
    = (Return (is_match, confidence_score, error_message), w')
    /\ (error_message <> "" ->
        is_match = false /\ confidence_score = 0%float).
Proof.
  intros pil_image image_array Image fr format_3f self staff_photo_path
    uploaded_photo w.
  unfold verify_face, try_except, bind at 1.
  destruct (extract_face_encoding_returns Image fr self
              (FilePath staff_photo_path) w)
    as ([[staff_encoding|] staff_error] & w1 & E1); rewrite E1.
  - unfold bind at 1.
    destruct (extract_face_encoding_returns Image fr self uploaded_photo w1)
      as ([[uploaded_encoding|] uploaded_error] & w2 & E2); rewrite E2.
    + unfold bind at 1.
      destruct (compare_faces_run format_3f fr self staff_encoding
                  uploaded_encoding w2) as [w3 E3].
      rewrite E3. unfold ret.
      eexists _, _, _, _. split; [reflexivity|].
      intros H. now contradiction H.
    + unfold ret. eexists _, _, _, _. split; [reflexivity|]. auto.
  - unfold ret. eexists _, _, _, _. split; [reflexivity|]. auto.
Qed.

(** C5, as the code has it.  A fault raised while an encoding is extracted
    (loading the image, locating the faces, encoding them), on either
    side, ends [verify_face] with no match, the confidence 0.0 and a
    message that is not empty, names the side and contains what the
    exception prints. *)
Theorem verify_face_extraction_fault :
  forall {pil_image image_array : Type} (Image : PIL pil_image)
    (L : Libraries pil_image image_array) (format_3f : float -> string)
    (self : FaceRecognitionService) (staff_photo_path : string)
    (uploaded_photo : image_file) (w : World) (s : side) (e : exn),
    extraction_fault Image L self staff_photo_path uploaded_photo w s e ->
    let error_message :=
      side_prefix s +++ "Error processing image: " +++ str_exn e in
    (exists w',
       verify_face Image (Some L) format_3f self staff_photo_path
         uploaded_photo w
       = (Return (false, 0%float, error_message), w'))
    /\ error_message <> ""
    /\ contains (str_exn e) error_message = true.
Proof.
  intros pil_image image_array Image L format_3f self staff_photo_path
    uploaded_photo w s e H error_message.
  split; [|split].
  - unfold verify_face, try_except, bind at 1.
    destruct H as [e w1 H1 | staff_encoding msg e w1 w2 H1 H2].
    + rewrite (extract_face_encoding_fault Image L self _ e w w1 H1).
      unfold ret. eexists. reflexivity.
    + rewrite H1. unfold bind at 1.
      rewrite (extract_face_encoding_fault Image L self _ e w1 w2 H2).
      unfold ret. eexists. reflexivity.
  - subst error_message. destruct s; apply append_nonempty.
  - subst error_message.
    replace (side_prefix s +++ "Error processing image: " +++ str_exn e)
      with ((side_prefix s +++ "Error processing image: ") +++ str_exn e)
      by (destruct s; reflexivity).
    apply contains_append.
Qed.

Lemma verify_face_extraction_fault_witness :
  let e := Exception "FileNotFoundError"
             "[Errno 2] No such file or directory: 'nope.jpg'" in
  let error_message :=
    side_prefix Staff +++ "Error processing image: " +++ str_exn e in
  (exists w',
     verify_face Sample.Image (Some Sample.libraries) Sample.format_3f
       Sample.face_recognition_service "nope.jpg" (Sample.upload "bob.jpg")
       empty_world
     = (Return (false, 0%float, error_message), w'))
  /\ error_message <> ""
  /\ contains (str_exn e) error_message = true.
Proof.
  apply (verify_face_extraction_fault Sample.Image Sample.libraries
           Sample.format_3f Sample.face_recognition_service "nope.jpg"
           (Sample.upload "bob.jpg") empty_world Staff).
  apply (fault_on_staff_photo _ _ _ _ _ _ _
           (mkWorld [] [call_load_image_file "nope.jpg"])).
  reflexivity.
Defined.

(** C5, as stated, fails for a fault raised while the two encodings are
    compared: the library raises ValueError on encodings of dimensions 3
    and 2, and [verify_face] answers an empty message, which the view
    files under [failed], not under [error]. *)
Lemma verify_face_comparison_fault_has_no_message :
  (exists msg,
     distance_of (Some Sample.libraries) Sample.alice Sample.short
     = inl (Exception "ValueError" msg))
  /\ fst (verify_face Sample.Image (Some Sample.libraries) Sample.format_3f
            Sample.face_recognition_service "alice.jpg"
            (Sample.upload "short.jpg") empty_world)
     = Return (false, 0%float, "")
  /\ determine_status false "" = failed.
Proof.
  split; [eexists; reflexivity|]. split; reflexivity.
Qed.

(** ** The face used when several are located *)

(** C9, as the code has it.  When more than one face is located, and the
    library encodes the located regions one by one, in order,
    [extract_face_encoding] goes on without failing and answers the
    encoding of the first region reported, with an empty message: the
    ambiguity is written to the log, as a warning, and nowhere else. *)
Theorem extract_face_encoding_uses_first_face :
  forall {pil_image image_array : Type} (Image : PIL pil_image)
    (L : Libraries pil_image image_array) (self : FaceRecognitionService)
    (f : image_file) (img : image_array) (first : face_location)
    (others : list face_location) (encode : face_location -> encoding)
    (w w1 : World),
    load_image Image L f w = (Return img, w1) ->
    face_locations L img (encoding_model self) = inr (first :: others) ->
    others <> [] ->
    face_encodings L img (first :: others) (encoding_model self)
    = inr (map encode (first :: others)) ->
    extract_face_encoding Image (Some L) self f w
    = (Return (Some (encode first), ""),
       record_call
         (call_face_encodings (first :: others) (encoding_model self))
         (record_log
            (LogRecord WARNING
               ("Multiple faces detected ("
                +++ str_nat (length (first :: others))
                +++ "), using the first one"))
            (record_call (call_face_locations (encoding_model self)) w1))).
Proof.
  intros pil_image image_array Image L self f img first others encode w w1
    Hload Hloc Hmany Henc.
  unfold extract_face_encoding, try_except, extract_face_encoding_body,
    bind at 1.
  rewrite Hload. py_unfold. rewrite Hloc.
  destruct others as [|second others]; [contradiction|].
  rewrite Henc. reflexivity.
Qed.

Lemma extract_face_encoding_uses_first_face_witness :
  extract_face_encoding Sample.Image (Some Sample.libraries)
    Sample.face_recognition_service (FilePath "group.jpg") empty_world
  = (Return (Some Sample.bob, ""),
     mkWorld
       [LogRecord WARNING "Multiple faces detected (2), using the first one"]
       [call_load_image_file "group.jpg"; call_face_locations "large";
        call_face_encodings
          [(20, 60, 60, 20)%Z; (10, 150, 50, 110)%Z] "large"]).
Proof.
  apply (extract_face_encoding_uses_first_face Sample.Image Sample.libraries
           Sample.face_recognition_service (FilePath "group.jpg")
           [((20, 60, 60, 20)%Z, Sample.bob);
            ((10, 150, 50, 110)%Z, Sample.alice)]
           (20, 60, 60, 20)%Z [(10, 150, 50, 110)%Z]
           (Sample.encode_region
              [((20, 60, 60, 20)%Z, Sample.bob);
               ((10, 150, 50, 110)%Z, Sample.alice)])
           empty_world
           (mkWorld [] [call_load_image_file "group.jpg"])).
  - reflexivity.
  - reflexivity.
  - discriminate.
  - reflexivity.
Defined.

(** C9, as stated, fails: two faces are located in the staff photo, and
    the message [verify_face] answers is empty; it does not record the
    ambiguity. *)
Lemma verify_face_ambiguity_not_in_message :
  (exists img,
     load_image_file Sample.libraries "group.jpg" = inr img
     /\ face_locations Sample.libraries img "large"
        = inr [(20, 60, 60, 20)%Z; (10, 150, 50, 110)%Z])
  /\ fst (verify_face Sample.Image (Some Sample.libraries) Sample.format_3f
            Sample.face_recognition_service "group.jpg"
            (Sample.upload "bob.jpg") empty_world)
     = Return (true, 1%float, "").
Proof.
  split; [eexists; split; reflexivity | reflexivity].
Qed.

(** ** The orchestrator: [batch_verify_faces] *)

(** C3. When the uploaded photo loads and no face is located in it,
    [batch_verify_faces] answers one entry [(id, False, 0.0)] per pair
    given, ids and order kept, and compares no encodings. *)
Theorem batch_verify_faces_no_face_in_uploaded_photo :
  forall {pil_image image_array : Type} (Image : PIL pil_image)
    (L : Libraries pil_image image_array) (format_3f : float -> string)
    (self : FaceRecognitionService)
    (staff_encodings : list (string * encoding))
    (uploaded_photo : image_file) (img : image_array) (w w1 : World),
    load_image Image L uploaded_photo w = (Return img, w1) ->
    face_locations L img (encoding_model self) = inr [] ->
    exists results w',
      batch_verify_faces Image (Some L) format_3f self staff_encodings
        uploaded_photo w
      = (Return results, w')
      /\ results = map (fun p => (fst p, false, 0%float)) staff_encodings
      /\ length results = length staff_encodings
      /\ map (fun r => fst (fst r)) results = map fst staff_encodings
      /\ comparisons w' = comparisons w.
Proof.
  intros pil_image image_array Image L format_3f self staff_encodings
    uploaded_photo img w w1 Hload Hloc.
  unfold batch_verify_faces, bind.
  rewrite (extract_face_encoding_no_face Image L self uploaded_photo img w w1
             Hload Hloc).
  unfold ret. eexists _, _. split; [reflexivity|].
  split; [reflexivity|].
  split; [apply length_map|].
  split; [rewrite map_map; reflexivity|].
  rewrite comparisons_record_call. cbn [is_comparison]. rewrite app_nil_r.
  pose proof (load_image_comparisons Image L uploaded_photo w) as H.
  rewrite Hload in H. exact H.
Qed.

Lemma batch_verify_faces_no_face_in_uploaded_photo_witness :
  exists results w',
    batch_verify_faces Sample.Image (Some Sample.libraries) Sample.format_3f
      Sample.face_recognition_service
      [("s1", Sample.bob); ("s2", Sample.alice)] (Sample.upload "wall.jpg")
      empty_world
    = (Return results, w')
    /\ results = [("s1", false, 0%float); ("s2", false, 0%float)]
    /\ length results = 2
    /\ map (fun r => fst (fst r)) results = ["s1"; "s2"]
    /\ comparisons w' = [].
Proof.
  apply (batch_verify_faces_no_face_in_uploaded_photo Sample.Image
           Sample.libraries Sample.format_3f Sample.face_recognition_service
           [("s1", Sample.bob); ("s2", Sample.alice)]
           (Sample.upload "wall.jpg") [] empty_world
           (snd (load_image Sample.Image Sample.libraries
                   (Sample.upload "wall.jpg") empty_world))).
  - reflexivity.
  - reflexivity.
Defined.

(** C4. When an encoding is extracted from the uploaded photo,
    [batch_verify_faces] answers one entry per pair given, ids and order
    kept; the entry of a pair depends on that pair alone, it is
    [(id, False, 0.0)] when the comparison of that pair fails, and one
    comparison is made for each pair, in order, failures included. *)
Theorem batch_verify_faces_one_entry_per_pair :
  forall {pil_image image_array : Type} (Image : PIL pil_image)
    (L : Libraries pil_image image_array) (format_3f : float -> string)
    (self : FaceRecognitionService)
    (staff_encodings : list (string * encoding))
    (uploaded_photo : image_file) (uploaded_encoding : encoding)
    (msg : string) (w w1 : World),
    extract_face_encoding Image (Some L) self uploaded_photo w
    = (Return (Some uploaded_encoding, msg), w1) ->
    exists results w',
      batch_verify_faces Image (Some L) format_3f self staff_encodings
        uploaded_photo w
      = (Return results, w')
      /\ length results = length staff_encodings
      /\ map (fun r => fst (fst r)) results = map fst staff_encodings
      /\ (forall i staff_id staff_encoding,
            nth_error staff_encodings i = Some (staff_id, staff_encoding) ->
            nth_error results i
            = Some (staff_id,
                    fst (compare_outcome (Some L) self staff_encoding
                           uploaded_encoding),
                    snd (compare_outcome (Some L) self staff_encoding
                           uploaded_encoding))
            /\ (forall e,
                  distance_of (Some L) staff_encoding uploaded_encoding
                  = inl e ->
                  nth_error results i = Some (staff_id, false, 0%float)))
      /\ comparisons w'
         = comparisons w1
           ++ map (comparison_call uploaded_encoding) staff_encodings.
Proof.
  intros pil_image image_array Image L format_3f self staff_encodings
    uploaded_photo uploaded_encoding msg w w1 Hextract.
  unfold batch_verify_faces, bind. rewrite Hextract.
  destruct (batch_verify_loop_run format_3f (Some L) self uploaded_encoding
              staff_encodings [] w1) as (w' & Hrun & Hcmp).
  rewrite Hrun. cbn [app].
  eexists _, w'. split; [reflexivity|].
  split; [apply length_map|].
  split; [rewrite map_map; reflexivity|].
  split; [|exact Hcmp].
  intros i staff_id staff_encoding Hi.
  assert (Hentry :
    nth_error (map (batch_entry (Some L) self uploaded_encoding)
                 staff_encodings) i
    = Some (staff_id,
            fst (compare_outcome (Some L) self staff_encoding
                   uploaded_encoding),
            snd (compare_outcome (Some L) self staff_encoding
                   uploaded_encoding))).
  { rewrite nth_error_map, Hi. reflexivity. }
  split; [exact Hentry|].
  intros e He. rewrite Hentry. unfold compare_outcome. rewrite He.
  reflexivity.
Qed.

Lemma batch_verify_faces_one_entry_per_pair_witness :
  let staff_encodings :=
    [("s1", Sample.bob); ("s2", Sample.short); ("s3", Sample.alice)] in
  exists results w',
    batch_verify_faces Sample.Image (Some Sample.libraries) Sample.format_3f
      Sample.face_recognition_service staff_encodings
      (Sample.upload "alice.jpg") empty_world
    = (Return results, w')
    /\ length results = length staff_encodings
    /\ map (fun r => fst (fst r)) results = map fst staff_encodings
    /\ (forall i staff_id staff_encoding,
          nth_error staff_encodings i = Some (staff_id, staff_encoding) ->
          nth_error results i
          = Some (staff_id,
                  fst (compare_outcome (Some Sample.libraries)
                         Sample.face_recognition_service staff_encoding
                         Sample.alice),
                  snd (compare_outcome (Some Sample.libraries)
                         Sample.face_recognition_service staff_encoding
                         Sample.alice))
          /\ (forall e,
                distance_of (Some Sample.libraries) staff_encoding
                  Sample.alice = inl e ->
                nth_error results i = Some (staff_id, false, 0%float)))
    /\ comparisons w'
       = comparisons
           (snd (extract_face_encoding Sample.Image (Some Sample.libraries)
                   Sample.face_recognition_service
                   (Sample.upload "alice.jpg") empty_world))
         ++ map (comparison_call Sample.alice) staff_encodings.
Proof.
  apply (batch_verify_faces_one_entry_per_pair Sample.Image Sample.libraries
           Sample.format_3f Sample.face_recognition_service
           [("s1", Sample.bob); ("s2", Sample.short); ("s3", Sample.alice)]
           (Sample.upload "alice.jpg") Sample.alice "" empty_world).
  reflexivity.
Defined.

(** A batch of three, run: the second comparison fails, the first and the
    third are made all the same. *)
Example batch_verify_faces_sample_run :
  fst (batch_verify_faces Sample.Image (Some Sample.libraries)
         Sample.format_3f Sample.face_recognition_service
         [("s1", Sample.bob); ("s2", Sample.short); ("s3", Sample.alice)]
         (Sample.upload "alice.jpg") empty_world)
  = Return [("s1", false, (1 - norm [0.9 - 0.1; 0.1 - 0.2; 0.8 - 0.3])%float);
            ("s2", false, 0%float);
            ("s3", true, 1%float)].
Proof. reflexivity. Qed.

(** * More of the code *)

(** ** More facts on binary64 numbers *)






Lemma is_nan_spec (x : float) : is_nan x = true -> Prim2SF x = S754_nan.
Proof.
  unfold is_nan. rewrite eqb_spec. unfold SFeqb, SFcompare.
  destruct (Prim2SF x) as [s|s| |s m e]; try reflexivity.
  - discriminate.
  - destruct s; discriminate.
  - destruct s; rewrite Z.compare_refl;
      change (Pos.compare_cont Eq m m) with (Pos.compare m m);
      rewrite Pos.compare_refl; discriminate.
Qed.

Lemma leb_nan_l (x y : float) : is_nan x = true -> (x <=? y)%float = false.
Proof. intros H. rewrite leb_spec, (is_nan_spec x H). reflexivity. Qed.

Lemma leb_nan_r (x y : float) : is_nan y = true -> (x <=? y)%float = false.
Proof.
  intros H. rewrite leb_spec, (is_nan_spec y H).
  unfold SFleb, SFcompare. destruct (Prim2SF x); reflexivity.
Qed.

(** ** The Euclidean distance, in either order *)






(** ** Answers that do not depend on the world *)

Lemma world_blind_ret {A} (a : A) : world_blind (ret a).
Proof. intros w w'. reflexivity. Qed.

Lemma world_blind_raise {A} (e : exn) : world_blind (@raise A e).
Proof. intros w w'. reflexivity. Qed.

Lemma world_blind_log (l : log_level) (m : string) : world_blind (log l m).
Proof. intros w w'. reflexivity. Qed.

Lemma world_blind_call {A} (c : lib_call) (answer : exn + A) :
  world_blind (call c answer).
Proof. intros w w'. unfold call. destruct answer; reflexivity. Qed.

Lemma world_blind_bind {A B} (c : Py A) (k : A -> Py B) :
  world_blind c -> (forall a, world_blind (k a)) -> world_blind (bind c k).
Proof.
  intros Hc Hk w w'. unfold bind. specialize (Hc w w').
  destruct (c w) as [[a|e] w1], (c w') as [[a'|e'] w1']; simpl in Hc;
    try discriminate; injection Hc as <-; [apply Hk | reflexivity].
Qed.

Lemma world_blind_try_except {A} (c : Py A) (h : exn -> Py A) :
  world_blind c -> (forall e, world_blind (h e)) ->
  world_blind (try_except c h).
Proof.
  intros Hc Hh w w'. unfold try_except. specialize (Hc w w').
  destruct (c w) as [[a|e] w1], (c w') as [[a'|e'] w1']; simpl in Hc;
    try discriminate; injection Hc as <-; [reflexivity | apply Hh].
Qed.

Ltac world_blind :=
  repeat first
    [ apply world_blind_ret | apply world_blind_raise
    | apply world_blind_log | apply world_blind_call
    | apply world_blind_bind; [|intro]
    | apply world_blind_try_except; [|intro]
    | match goal with
      | |- world_blind (match ?x with _ => _ end) => destruct x
      | |- world_blind (if ?x then _ else _) => destruct x
      end ].

Section MoreFacts.

Context {pil_image image_array : Type}.
Variable Image : PIL pil_image.
Variable format_3f : float -> string.

Implicit Types (L : Libraries pil_image image_array)
  (fr : option (Libraries pil_image image_array))
  (self : FaceRecognitionService) (w : World).


Lemma compare_faces_world_blind fr self known unknown :
  world_blind (compare_faces fr format_3f self known unknown).
Proof.
  intros w w'. now rewrite !compare_faces_value.
Qed.

(** The answer of [extract_face_encoding], as a pair. *)
Lemma extract_face_encoding_answer fr self f w :
  exists enc msg w',
    extract_face_encoding Image fr self f w = (Return (enc, msg), w').
Proof.
  destruct (extract_face_encoding_returns Image fr self f w)
    as ([enc msg] & w' & E).
  eauto.
Qed.

(** Without the libraries no encoding is extracted. *)
Lemma extract_face_encoding_needs_libraries self f enc msg w w' :
  extract_face_encoding (image_array := image_array) Image None self f w
  = (Return (Some enc, msg), w') -> False.
Proof. unfold extract_face_encoding, ret. discriminate. Qed.

End MoreFacts.

(** ** [extract_face_encoding], all its answers *)

Lemma extract_face_encoding_body_answers
    {pil_image image_array : Type} (Image : PIL pil_image)
    (L : Libraries pil_image image_array) (self : FaceRecognitionService)
    (f : image_file) (enc : option encoding) (msg : string) (w w1 : World) :
  extract_face_encoding_body Image L self f w = (Return (enc, msg), w1) ->
  (enc = None
   /\ msg = "No face detected in the image"
   /\ exists img w0,
        load_image Image L f w = (Return img, w0)
        /\ face_locations L img (encoding_model self) = inr [])
  \/ (enc = None /\ msg = "Could not generate face encoding")
  \/ (exists e, enc = Some e /\ msg = "").
Proof.
  unfold extract_face_encoding_body, bind at 1.
  destruct (load_image Image L f w) as [[img|e] w0]; [|discriminate].
  py_unfold.
  destruct (face_locations L img (encoding_model self))
    as [e|[|l ls]] eqn:Hloc; [discriminate| |].
  - intros H. injection H as <- <- _. left. eauto 6.
  - destruct (1 <? length (l :: ls))%nat;
      destruct (face_encodings L img (l :: ls) (encoding_model self))
        as [e|[|first rest]]; try discriminate;
      intros H; injection H as <- <- _; eauto.
Qed.

(** X1. [extract_face_encoding] always returns, and it answers a message
    exactly when it answers no encoding: the message is empty if and only
    if an encoding comes with it. *)
Theorem extract_face_encoding_message_iff_no_encoding :
  forall {pil_image image_array : Type} (Image : PIL pil_image)
    (fr : option (Libraries pil_image image_array))
    (self : FaceRecognitionService) (f : image_file) (w : World),
  exists enc msg w',
    extract_face_encoding Image fr self f w = (Return (enc, msg), w')
    /\ (enc = None <-> msg <> "").
Proof.
  intros pil_image image_array Image fr self f w.
  unfold extract_face_encoding.
  destruct fr as [L|].
  - unfold try_except.
    destruct (extract_face_encoding_body Image L self f w)
      as [[[enc msg]|e] w1] eqn:E.
    + exists enc, msg, w1. split; [reflexivity|].
      destruct (extract_face_encoding_body_answers Image L self f enc msg
                  w w1 E)
        as [(-> & -> & _) | [(-> & ->) | (e & -> & ->)]];
        split; intros H; try reflexivity; try discriminate;
        now contradiction H.
    + py_unfold. eexists _, _, _. split; [reflexivity|].
      split; [discriminate | reflexivity].
  - unfold ret. eexists _, _, _. split; [reflexivity|].
    split; [discriminate | reflexivity].
Qed.

(** ** More on [verify_face] *)

(** X2. Without the libraries every verification ends, before any
    library is called or anything is logged, with the staff-side message
    that they are not installed, which the view files under [error]; and
    a batch answers no match for every pair. *)
Theorem verification_without_libraries :
  forall {pil_image image_array : Type} (Image : PIL pil_image)
    (format_3f : float -> string) (self : FaceRecognitionService)
    (staff_photo_path : string) (uploaded_photo : image_file)
    (staff_encodings : list (string * encoding)) (w : World),
    verify_face (image_array := image_array) Image None format_3f self
      staff_photo_path uploaded_photo w
    = (Return (false, 0%float,
               "Staff photo error: Face recognition libraries not installed"),
       w)
    /\ determine_status false
         "Staff photo error: Face recognition libraries not installed"
       = error
    /\ batch_verify_faces (image_array := image_array) Image None format_3f
         self staff_encodings uploaded_photo w
       = (Return (map (fun p => (fst p, false, 0%float)) staff_encodings), w).
Proof.
  intros. split; [reflexivity|]. split; reflexivity.
Qed.

(** X3. When the staff photo gives an encoding and no face is located in
    the uploaded photo, [verify_face] answers the uploaded-side no-face
    message, which the view files under [no_face], and compares
    nothing. *)
Theorem verify_face_no_face_in_uploaded_photo :
  forall {pil_image image_array : Type} (Image : PIL pil_image)
    (L : Libraries pil_image image_array) (format_3f : float -> string)
    (self : FaceRecognitionService) (staff_photo_path : string)
    (uploaded_photo : image_file) (staff_encoding : encoding)
    (msg : string) (img : image_array) (w w1 w2 : World),
    extract_face_encoding Image (Some L) self (FilePath staff_photo_path) w
    = (Return (Some staff_encoding, msg), w1) ->
    load_image Image L uploaded_photo w1 = (Return img, w2) ->
    face_locations L img (encoding_model self) = inr [] ->
    verify_face Image (Some L) format_3f self staff_photo_path
      uploaded_photo w
    = (Return (false, 0%float,
               "Uploaded photo error: No face detected in the image"),
       record_call (call_face_locations (encoding_model self)) w2)
    /\ determine_status false
         "Uploaded photo error: No face detected in the image" = no_face
    /\ comparisons
         (record_call (call_face_locations (encoding_model self)) w2)
       = comparisons w.
Proof.
  intros pil_image image_array Image L format_3f self staff_photo_path
    uploaded_photo staff_encoding msg img w w1 w2 Hstaff Hload Hloc.
  split; [|split; [reflexivity|]].
  - unfold verify_face, try_except, bind at 1. rewrite Hstaff.
    unfold bind at 1.
    rewrite (extract_face_encoding_no_face Image L self uploaded_photo img
               w1 w2 Hload Hloc).
    reflexivity.
  - rewrite comparisons_record_call. cbn [is_comparison].
    rewrite app_nil_r.
    pose proof (load_image_comparisons Image L uploaded_photo w1) as H2.
    rewrite Hload in H2. cbn [snd] in H2. rewrite H2.
    pose proof (extract_face_encoding_comparisons Image (Some L) self
                  (FilePath staff_photo_path) w) as H1.
    rewrite Hstaff in H1. exact H1.
Qed.

Lemma verify_face_no_face_in_uploaded_photo_witness :
  fst (verify_face Sample.Image (Some Sample.libraries) Sample.format_3f
         Sample.face_recognition_service "alice.jpg"
         (Sample.upload "wall.jpg") empty_world)
  = Return (false, 0%float,
            "Uploaded photo error: No face detected in the image").
Proof.
  pose proof
    (verify_face_no_face_in_uploaded_photo Sample.Image Sample.libraries
       Sample.format_3f Sample.face_recognition_service "alice.jpg"
       (Sample.upload "wall.jpg") Sample.alice "" [] empty_world
       (snd (extract_face_encoding Sample.Image (Some Sample.libraries)
               Sample.face_recognition_service (FilePath "alice.jpg")
               empty_world))
       (snd (load_image Sample.Image Sample.libraries
               (Sample.upload "wall.jpg")
               (snd (extract_face_encoding Sample.Image
                       (Some Sample.libraries)
                       Sample.face_recognition_service
                       (FilePath "alice.jpg") empty_world))))
       eq_refl eq_refl eq_refl) as [H _].
  rewrite H. reflexivity.
Defined.

(** X4. When both photos give an encoding, [verify_face] answers what
    [compare_faces] answers for the staff encoding, as the known one, and
    the uploaded one, with an empty message; the view files the attempt
    under [success] on a match and under [failed] otherwise; and exactly
    one comparison is made, that one. *)
Theorem verify_face_when_both_encoded :
  forall {pil_image image_array : Type} (Image : PIL pil_image)
    (L : Libraries pil_image image_array) (format_3f : float -> string)
    (self : FaceRecognitionService) (staff_photo_path : string)
    (uploaded_photo : image_file) (staff_encoding uploaded_encoding : encoding)
    (msg1 msg2 : string) (w w1 w2 : World),
    extract_face_encoding Image (Some L) self (FilePath staff_photo_path) w
    = (Return (Some staff_encoding, msg1), w1) ->
    extract_face_encoding Image (Some L) self uploaded_photo w1
    = (Return (Some uploaded_encoding, msg2), w2) ->
    let outcome :=
      compare_outcome (Some L) self staff_encoding uploaded_encoding in
    exists w',
      verify_face Image (Some L) format_3f self staff_photo_path
        uploaded_photo w
      = (Return (fst outcome, snd outcome, ""), w')
      /\ determine_status (fst outcome) ""
         = (if fst outcome then success else failed)
      /\ comparisons w'
         = comparisons w
           ++ [call_face_distance [staff_encoding] uploaded_encoding].
Proof.
  intros pil_image image_array Image L format_3f self staff_photo_path
    uploaded_photo staff_encoding uploaded_encoding msg1 msg2 w w1 w2
    Hstaff Hup outcome.
  pose proof (compare_faces_comparisons format_3f (Some L) self
                staff_encoding uploaded_encoding w2) as Hc.
  destruct (compare_faces_run format_3f (Some L) self staff_encoding
              uploaded_encoding w2) as [w3 E3].
  rewrite E3 in Hc. cbn [snd] in Hc.
  exists w3. split; [|split].
  - unfold verify_face, try_except, bind at 1. rewrite Hstaff.
    unfold bind at 1. rewrite Hup. unfold bind at 1. rewrite E3.
    reflexivity.
  - reflexivity.
  - rewrite Hc. f_equal.
    pose proof (extract_face_encoding_comparisons Image (Some L) self
                  uploaded_photo w1) as H2.
    rewrite Hup in H2. cbn [snd] in H2. rewrite H2.
    pose proof (extract_face_encoding_comparisons Image (Some L) self
                  (FilePath staff_photo_path) w) as H1.
    rewrite Hstaff in H1. exact H1.
Qed.

Lemma verify_face_when_both_encoded_witness :
  exists w',
    verify_face Sample.Image (Some Sample.libraries) Sample.format_3f
      Sample.face_recognition_service "bob.jpg" (Sample.upload "alice.jpg")
      empty_world
    = (Return (false, (1 - norm [0.9 - 0.1; 0.1 - 0.2; 0.8 - 0.3])%float, ""),
       w')
    /\ determine_status false "" = failed
    /\ comparisons w' = [call_face_distance [Sample.bob] Sample.alice].
Proof.
  apply (verify_face_when_both_encoded Sample.Image Sample.libraries
           Sample.format_3f Sample.face_recognition_service "bob.jpg"
           (Sample.upload "alice.jpg") Sample.bob Sample.alice "" ""
           empty_world
           (snd (extract_face_encoding Sample.Image (Some Sample.libraries)
                   Sample.face_recognition_service (FilePath "bob.jpg")
                   empty_world))
           (snd (extract_face_encoding Sample.Image (Some Sample.libraries)
                   Sample.face_recognition_service
                   (Sample.upload "alice.jpg")
                   (snd (extract_face_encoding Sample.Image
                           (Some Sample.libraries)
                           Sample.face_recognition_service
                           (FilePath "bob.jpg") empty_world))))).
  - reflexivity.
  - reflexivity.
Defined.

(** X5. Whatever the photos and the libraries do, [verify_face] compares
    encodings at most once, and its message is empty exactly when it has
    compared: a run that answers a message has compared nothing. *)
Theorem verify_face_compares_at_most_once :
  forall {pil_image image_array : Type} (Image : PIL pil_image)
    (fr : option (Libraries pil_image image_array))
    (format_3f : float -> string) (self : FaceRecognitionService)
    (staff_photo_path : string) (uploaded_photo : image_file) (w : World),
  exists answer w',
    verify_face Image fr format_3f self staff_photo_path uploaded_photo w
    = (Return answer, w')
    /\ ((snd answer <> "" /\ comparisons w' = comparisons w)
        \/ (snd answer = ""
            /\ exists known unknown,
                 comparisons w'
                 = comparisons w ++ [call_face_distance [known] unknown])).
Proof.
  intros pil_image image_array Image fr format_3f self staff_photo_path
    uploaded_photo w.
  unfold verify_face, try_except, bind at 1.
  pose proof (extract_face_encoding_comparisons Image fr self
                (FilePath staff_photo_path) w) as H1.
  destruct (extract_face_encoding_returns Image fr self
              (FilePath staff_photo_path) w)
    as ([[staff_encoding|] staff_error] & w1 & E1);
    rewrite E1 in *; cbn [snd] in H1.
  - unfold bind at 1.
    pose proof (extract_face_encoding_comparisons Image fr self
                  uploaded_photo w1) as H2.
    destruct (extract_face_encoding_returns Image fr self uploaded_photo w1)
      as ([[uploaded_encoding|] uploaded_error] & w2 & E2);
      rewrite E2 in *; cbn [snd] in H2.
    + destruct fr as [L|];
        [|destruct (extract_face_encoding_needs_libraries Image self _ _ _
                      _ _ E1)].
      unfold bind at 1.
      pose proof (compare_faces_comparisons format_3f (Some L) self
                    staff_encoding uploaded_encoding w2) as Hc.
      destruct (compare_faces_run format_3f (Some L) self staff_encoding
                  uploaded_encoding w2) as [w3 E3].
      rewrite E3 in *. cbn [snd] in Hc. unfold ret.
      eexists _, _. split; [reflexivity|]. right.
      split; [reflexivity|].
      exists staff_encoding, uploaded_encoding. now rewrite Hc, H2, H1.
    + unfold ret. eexists _, _. split; [reflexivity|]. left.
      split; [discriminate | now rewrite H2, H1].
  - unfold ret. eexists _, _. split; [reflexivity|]. left.
    split; [discriminate | exact H1].
Qed.

(** ** More on [batch_verify_faces] *)

(** The answer of a batch, in every world: no match for every pair when
    the uploaded photo gives no encoding, the entry of each pair
    otherwise. *)
Lemma batch_verify_faces_run
    {pil_image image_array : Type} (Image : PIL pil_image)
    (fr : option (Libraries pil_image image_array))
    (format_3f : float -> string) (self : FaceRecognitionService)
    (staff_encodings : list (string * encoding))
    (uploaded_photo : image_file) (w : World) :
  exists enc msg w1 w',
    extract_face_encoding Image fr self uploaded_photo w
    = (Return (enc, msg), w1)
    /\ batch_verify_faces Image fr format_3f self staff_encodings
         uploaded_photo w
       = (Return
            match enc with
            | None => map (fun p => (fst p, false, 0%float)) staff_encodings
            | Some uploaded_encoding =>
                map (batch_entry fr self uploaded_encoding) staff_encodings
            end, w')
    /\ comparisons w'
       = comparisons w
         ++ match enc with
            | None => []
            | Some uploaded_encoding =>
                map (comparison_call uploaded_encoding) staff_encodings
            end.
Proof.
  unfold batch_verify_faces, bind.
  pose proof (extract_face_encoding_comparisons Image fr self
                uploaded_photo w) as H1.
  destruct (extract_face_encoding_answer Image fr self uploaded_photo w)
    as (enc & msg & w1 & E).
  rewrite E in *. cbn [snd] in H1.
  exists enc, msg, w1.
  destruct enc as [uploaded_encoding|].
  - destruct (batch_verify_loop_run format_3f fr self uploaded_encoding
                staff_encodings [] w1) as (w' & Hrun & Hcmp).
    exists w'. split; [reflexivity|]. split; [exact Hrun|].
    rewrite Hcmp, H1.
    destruct fr; [reflexivity|].
    destruct (extract_face_encoding_needs_libraries Image self _ _ _ _ _ E).
  - exists w1. split; [reflexivity|]. split; [reflexivity|].
    now rewrite app_nil_r.
Qed.

(** X6. Whatever the uploaded photo and the libraries do,
    [batch_verify_faces] returns, with exactly one entry per pair given,
    carrying the ids given, in the order given. *)
Theorem batch_verify_faces_always_one_entry_per_pair :
  forall {pil_image image_array : Type} (Image : PIL pil_image)
    (fr : option (Libraries pil_image image_array))
    (format_3f : float -> string) (self : FaceRecognitionService)
    (staff_encodings : list (string * encoding))
    (uploaded_photo : image_file) (w : World),
  exists results w',
    batch_verify_faces Image fr format_3f self staff_encodings
      uploaded_photo w
    = (Return results, w')
    /\ length results = length staff_encodings
    /\ map (fun r => fst (fst r)) results = map fst staff_encodings.
Proof.
  intros pil_image image_array Image fr format_3f self staff_encodings
    uploaded_photo w.
  destruct (batch_verify_faces_run Image fr format_3f self staff_encodings
              uploaded_photo w) as (enc & msg & w1 & w' & _ & Hrun & _).
  eexists _, w'. split; [exact Hrun|].
  destruct enc; (split; [apply length_map | now rewrite map_map]).
Qed.

(** X7. Whenever the uploaded photo gives no encoding, for whatever
    reason (the libraries are missing, the image cannot be read, no face
    is located, no encoding is generated), [batch_verify_faces] answers
    no match and the confidence 0.0 for every pair, and compares
    nothing. *)
Theorem batch_verify_faces_without_encoding :
  forall {pil_image image_array : Type} (Image : PIL pil_image)
    (fr : option (Libraries pil_image image_array))
    (format_3f : float -> string) (self : FaceRecognitionService)
    (staff_encodings : list (string * encoding))
    (uploaded_photo : image_file) (msg : string) (w w1 : World),
    extract_face_encoding Image fr self uploaded_photo w
    = (Return (None, msg), w1) ->
    batch_verify_faces Image fr format_3f self staff_encodings
      uploaded_photo w
    = (Return (map (fun p => (fst p, false, 0%float)) staff_encodings), w1)
    /\ comparisons w1 = comparisons w.
Proof.
  intros pil_image image_array Image fr format_3f self staff_encodings
    uploaded_photo msg w w1 H.
  split.
  - unfold batch_verify_faces, bind. rewrite H. reflexivity.
  - pose proof (extract_face_encoding_comparisons Image fr self
                  uploaded_photo w) as H1.
    rewrite H in H1. exact H1.
Qed.

Lemma batch_verify_faces_without_encoding_witness :
  fst (batch_verify_faces Sample.Image (Some Sample.libraries)
         Sample.format_3f Sample.face_recognition_service
         [("s1", Sample.bob); ("s2", Sample.alice)]
         (Sample.upload "nope.jpg") empty_world)
  = Return [("s1", false, 0%float); ("s2", false, 0%float)].
Proof.
  pose proof
    (batch_verify_faces_without_encoding Sample.Image
       (Some Sample.libraries) Sample.format_3f
       Sample.face_recognition_service
       [("s1", Sample.bob); ("s2", Sample.alice)]
       (Sample.upload "nope.jpg")
       "Error processing image: cannot identify image file" empty_world
       (snd (extract_face_encoding Sample.Image (Some Sample.libraries)
               Sample.face_recognition_service (Sample.upload "nope.jpg")
               empty_world))
       eq_refl) as [H _].
  rewrite H. reflexivity.
Defined.




(** ** More on [compare_faces] *)

(** X10. Every call of [compare_faces] writes exactly one record to the
    log: at level INFO when the distance was had, at level ERROR, with the
    text of the exception, when it was not. *)
Theorem compare_faces_logs_one_record :
  forall {pil_image image_array : Type}
    (fr : option (Libraries pil_image image_array))
    (format_3f : float -> string) (self : FaceRecognitionService)
    (known unknown : encoding) (w : World),
  exists record,
    logs (snd (compare_faces fr format_3f self known unknown w))
    = logs w ++ [record]
    /\ match distance_of fr known unknown with
       | inr _ => log_lvl record = INFO
       | inl e =>
           record = LogRecord ERROR ("Error comparing faces: " +++ str_exn e)
       end.
Proof.
  intros pil_image image_array fr format_3f self known unknown w.
  unfold compare_faces, compare_faces_body, distance_of. py_unfold.
  destruct fr as [L|]; [|eexists; split; reflexivity].
  destruct (face_distance L [known] unknown) as [e|[|d ds]];
    eexists; split; reflexivity.
Qed.

(** X11. A distance that is not a number never matches, and neither does
    any distance under a threshold that is not a number. *)
Theorem compare_faces_nan_never_matches :
  forall {pil_image image_array : Type}
    (fr : option (Libraries pil_image image_array))
    (format_3f : float -> string) (self : FaceRecognitionService)
    (known unknown : encoding) (d : float) (w : World),
    distance_of fr known unknown = inr d ->
    is_nan d = true \/ is_nan (RECOGNITION_THRESHOLD self) = true ->
    exists w',
      compare_faces fr format_3f self known unknown w
      = (Return (false, (1 - d)%float), w').
Proof.
  intros pil_image image_array fr format_3f self known unknown d w Hd Hnan.
  destruct (compare_faces_run format_3f fr self known unknown w) as [w' E].
  exists w'. rewrite E. unfold compare_outcome. rewrite Hd.
  destruct Hnan as [H|H];
    [rewrite (leb_nan_l _ _ H) | rewrite (leb_nan_r _ _ H)]; reflexivity.
Qed.

Lemma compare_faces_nan_never_matches_witness :
  exists w',
    compare_faces (Some Sample.libraries) Sample.format_3f
      (Sample.with_threshold infinity) Sample.alice Sample2.broken
      empty_world
    = (Return (false, (1 - nan)%float), w').
Proof.
  apply (compare_faces_nan_never_matches (Some Sample.libraries)
           Sample.format_3f (Sample.with_threshold infinity) Sample.alice
           Sample2.broken nan empty_world).
  - reflexivity.
  - left. reflexivity.
Defined.




(** ** [get_face_locations] *)

Lemma load_image_unguarded_available
    {pil_image image_array : Type} (Image : PIL pil_image)
    (L : Libraries pil_image image_array) (f : image_file) (w : World) :
  load_image_unguarded Image (Some L) f w = load_image Image L f w.
Proof.
  unfold load_image_unguarded, load_image. py_unfold.
  destruct f as [image_data|path]; [|reflexivity].
  destruct (Image_open Image image_data) as [e|image]; [reflexivity|].
  destruct (String.eqb (mode Image image) "RGBA"); [|reflexivity].
  destruct (convert Image image "RGB"); reflexivity.
Qed.

Lemma load_image_unguarded_unavailable
    {pil_image image_array : Type} (Image : PIL pil_image)
    (f : image_file) (w : World) :
  exists e w',
    load_image_unguarded (image_array := image_array) Image None f w
    = (Raise e, w')
    /\ comparisons w' = comparisons w.
Proof.
  unfold load_image_unguarded. py_unfold.
  destruct f as [image_data|path].
  - destruct (Image_open Image image_data) as [e|image].
    + eexists _, _. split; [reflexivity | same_comparisons].
    + destruct (String.eqb (mode Image image) "RGBA").
      * destruct (convert Image image "RGB");
          eexists _, _; (split; [reflexivity | same_comparisons]).
      * eexists _, _. split; [reflexivity | same_comparisons].
  - eexists _, _. split; reflexivity.
Qed.

Lemma get_face_locations_world_blind
    {pil_image image_array : Type} (Image : PIL pil_image)
    (fr : option (Libraries pil_image image_array))
    (self : FaceRecognitionService) (f : image_file) :
  world_blind (get_face_locations Image fr self f).
Proof.
  unfold get_face_locations, load_image_unguarded, module_attr.
  world_blind.
Qed.

(** X13. [get_face_locations] never raises and never compares
    encodings; an answer that is not empty is the list the locator gave
    for the image loaded from the file, so that every fault, the missing
    libraries included, shows as the empty list. *)
Theorem get_face_locations_returns :
  forall {pil_image image_array : Type} (Image : PIL pil_image)
    (fr : option (Libraries pil_image image_array))
    (self : FaceRecognitionService) (f : image_file) (w : World),
  exists locations w',
    get_face_locations Image fr self f w = (Return locations, w')
    /\ comparisons w' = comparisons w
    /\ (locations <> [] ->
        exists L img w0,
          fr = Some L
          /\ load_image Image L f w = (Return img, w0)
          /\ face_locations L img (encoding_model self) = inr locations).
Proof.
  intros pil_image image_array Image fr self f w.
  unfold get_face_locations, try_except, bind at 1.
  destruct fr as [L|].
  - rewrite load_image_unguarded_available.
    pose proof (load_image_comparisons Image L f w) as Hc.
    destruct (load_image Image L f w) as [[img|e] w0] eqn:Hload;
      cbn [snd] in Hc.
    + py_unfold.
      destruct (face_locations L img (encoding_model self))
        as [e|locations] eqn:Hloc.
      * eexists _, _. split; [reflexivity|].
        split; [same_comparisons; exact Hc | intros H; now contradiction H].
      * eexists _, _. split; [reflexivity|].
        split; [same_comparisons; exact Hc|].
        intros _. exists L, img, w0. auto.
    + py_unfold. eexists _, _. split; [reflexivity|].
      split; [same_comparisons; exact Hc | intros H; now contradiction H].
  - destruct (load_image_unguarded_unavailable (image_array := image_array)
                Image f w) as (e & w0 & E & Hc).
    rewrite E. py_unfold. eexists _, _. split; [reflexivity|].
    split; [same_comparisons; exact Hc | intros H; now contradiction H].
Qed.

(** X14. The two readers of a photo agree on the absence of a face: when
    [extract_face_encoding] answers that no face is detected in a file,
    [get_face_locations] answers the empty list for that file. *)
Theorem get_face_locations_agrees_on_no_face :
  forall {pil_image image_array : Type} (Image : PIL pil_image)
    (fr : option (Libraries pil_image image_array))
    (self : FaceRecognitionService) (f : image_file) (w w1 w2 : World),
    extract_face_encoding Image fr self f w
    = (Return (None, "No face detected in the image"), w1) ->
    fst (get_face_locations Image fr self f w2) = Return [].
Proof.
  intros pil_image image_array Image fr self f w w1 w2 H.
  rewrite (get_face_locations_world_blind Image fr self f w2 w).
  unfold extract_face_encoding in H.
  destruct fr as [L|]; [|discriminate H].
  unfold try_except in H.
  destruct (extract_face_encoding_body Image L self f w)
    as [[[enc msg]|e] w0] eqn:E.
  - injection H as -> -> _.
    destruct (extract_face_encoding_body_answers Image L self f None _ w w0 E)
      as [(_ & _ & img & w3 & Hload & Hloc) | [(_ & Hm) | (e & He & _)]];
      [|discriminate Hm|discriminate He].
    unfold get_face_locations, try_except, bind at 1.
    rewrite load_image_unguarded_available, Hload. py_unfold.
    rewrite Hloc. reflexivity.
  - py_unfold. simpl in H. discriminate H.
Qed.

Lemma get_face_locations_agrees_on_no_face_witness :
  fst (get_face_locations Sample.Image (Some Sample.libraries)
         Sample.face_recognition_service (Sample.upload "wall.jpg")
         empty_world)
  = Return [].
Proof.
  apply (get_face_locations_agrees_on_no_face Sample.Image
           (Some Sample.libraries) Sample.face_recognition_service
           (Sample.upload "wall.jpg") empty_world
           (snd (extract_face_encoding Sample.Image (Some Sample.libraries)
                   Sample.face_recognition_service
                   (Sample.upload "wall.jpg") empty_world))
           empty_world).
  reflexivity.
Defined.

(** ** The view *)

Lemma split_head (sep : ascii) (s : string) :
  exists head tail,
    split sep s = head :: tail
    /\ (s = head \/ exists rest, s = head +++ String sep rest)
    /\ contains (String sep "") head = false.
Proof.
  induction s as [|c s (head & tail & Hsplit & Hs & Hno)].
  - exists "", []. split; [reflexivity|]. split; [now left | reflexivity].
  - cbn [split]. destruct (Ascii.eqb_spec c sep) as [->|Hc].
    + exists "", (split sep s). split; [reflexivity|].
      split; [right; now exists s | reflexivity].
    + rewrite Hsplit. exists (String c head), tail.
      split; [reflexivity|]. split.
      * destruct Hs as [->|[rest ->]]; [now left | right; now exists rest].
      * cbn [contains String.prefix]. rewrite Hno.
        destruct (ascii_dec sep c) as [E|_]; [now symmetry in E|].
        reflexivity.
Qed.

(** X15. When the request carries a forwarding header that is not empty,
    [get_client_ip] answers the text of that header up to its first
    comma, the whole of it when it has none, and never [REMOTE_ADDR]: the
    answer holds no comma, and is kept as it stands, blanks included. *)
Theorem get_client_ip_forwarded :
  forall (META : list (string * string)) (x_forwarded_for : string),
    dict_get META "HTTP_X_FORWARDED_FOR" = Some x_forwarded_for ->
    x_forwarded_for <> "" ->
    exists ip,
      get_client_ip META = Some ip
      /\ contains "," ip = false
      /\ (x_forwarded_for = ip
          \/ exists rest, x_forwarded_for = ip +++ "," +++ rest).
Proof.
  intros META x Hget Hx. unfold get_client_ip. rewrite Hget.
  destruct x as [|c x]; [now contradiction Hx|].
  destruct (split_head "," (String c x)) as (head & tail & -> & Hs & Hno).
  exists head. auto.
Qed.

Lemma get_client_ip_forwarded_witness :
  exists ip,
    get_client_ip Sample2.proxied = Some ip
    /\ contains "," ip = false
    /\ ("203.0.113.7, 70.41.3.18,150.172.238.178" = ip
        \/ exists rest,
             "203.0.113.7, 70.41.3.18,150.172.238.178" = ip +++ "," +++ rest).
Proof.
  apply (get_client_ip_forwarded Sample2.proxied
           "203.0.113.7, 70.41.3.18,150.172.238.178").
  - reflexivity.
  - discriminate.
Defined.

(** A header that is absent or empty leaves the address of the peer. *)
Example get_client_ip_direct :
  get_client_ip Sample2.direct = Some "192.0.2.44"
  /\ get_client_ip Sample2.proxied = Some "203.0.113.7"
  /\ get_client_ip [] = None.
Proof. repeat split. Qed.

(** The answers of [verify_face]: no match, the confidence 0.0 and a
    message, or what the comparison of two encodings gave and no
    message. *)
Lemma verify_face_answers
    {pil_image image_array : Type} (Image : PIL pil_image)
    (fr : option (Libraries pil_image image_array))
    (format_3f : float -> string) (self : FaceRecognitionService)
    (staff_photo_path : string) (uploaded_photo : image_file) (w : World) :
  exists answer w',
    verify_face Image fr format_3f self staff_photo_path uploaded_photo w
    = (Return answer, w')
    /\ ((exists msg, msg <> "" /\ answer = (false, 0%float, msg))
        \/ (exists known unknown,
              answer = (fst (compare_outcome fr self known unknown),
                        snd (compare_outcome fr self known unknown), ""))).
Proof.
  unfold verify_face, try_except, bind at 1.
  destruct (extract_face_encoding_returns Image fr self
              (FilePath staff_photo_path) w)
    as ([[staff_encoding|] staff_error] & w1 & E1); rewrite E1.
  - unfold bind at 1.
    destruct (extract_face_encoding_returns Image fr self uploaded_photo w1)
      as ([[uploaded_encoding|] uploaded_error] & w2 & E2); rewrite E2.
    + unfold bind at 1.
      destruct (compare_faces_run format_3f fr self staff_encoding
                  uploaded_encoding w2) as [w3 E3].
      rewrite E3. unfold ret. eexists _, _. split; [reflexivity|].
      right. eauto.
    + unfold ret. eexists _, _. split; [reflexivity|]. left.
      eexists. split; [|reflexivity]. discriminate.
  - unfold ret. eexists _, _. split; [reflexivity|]. left.
    eexists. split; [|reflexivity]. discriminate.
Qed.

(** X16. What the view records of a verification is coherent, whatever
    the photos and the libraries do: an attempt filed under [no_face] or
    [error] stores a message and no confidence score; one filed under
    [success] or [failed] stores no message, and is filed under [success]
    exactly when the faces matched. *)
Theorem recorded_attempt_coherent :
  forall {pil_image image_array : Type} (Image : PIL pil_image)
    (fr : option (Libraries pil_image image_array))
    (format_3f : float -> string) (self : FaceRecognitionService)
    (staff_photo_path : string) (uploaded_photo : image_file) (w : World),
  exists answer w',
    verify_face Image fr format_3f self staff_photo_path uploaded_photo w
    = (Return answer, w')
    /\ match attempt_status (create_attempt answer) with
       | no_face | error =>
           attempt_confidence_score (create_attempt answer) = None
           /\ attempt_error_message (create_attempt answer) <> ""
       | success =>
           fst (fst answer) = true
           /\ attempt_error_message (create_attempt answer) = ""
       | failed =>
           fst (fst answer) = false
           /\ attempt_error_message (create_attempt answer) = ""
       end.
Proof.
  intros pil_image image_array Image fr format_3f self staff_photo_path
    uploaded_photo w.
  destruct (verify_face_answers Image fr format_3f self staff_photo_path
              uploaded_photo w)
    as (answer & w' & E & [(msg & Hmsg & ->) | (k & u & ->)]).
  - eexists _, w'. split; [exact E|].
    unfold create_attempt, determine_status. cbn [attempt_status].
    destruct msg as [|c msg]; [now contradiction Hmsg|].
    cbn [String.eqb negb].
    destruct (contains "No face detected" (String c msg));
      split; try reflexivity; discriminate.
  - eexists _, w'. split; [exact E|].
    unfold create_attempt, determine_status. cbn [attempt_status].
    cbn [String.eqb negb fst snd].
    destruct (fst (compare_outcome fr self k u)); split; reflexivity.
Qed.

(** X17. When no face is located in the staff photo, the message the
    view prepares for the user is the one that speaks of the uploaded
    photo, although the uploaded photo was not looked at. *)
Theorem staff_photo_without_face_is_reported_as_uploaded :
  forall {pil_image image_array : Type} (Image : PIL pil_image)
    (L : Libraries pil_image image_array) (format_3f : float -> string)
    (self : FaceRecognitionService) (staff_photo_path staff_name : string)
    (uploaded_photo : image_file) (img : image_array) (w : World),
    load_image_file L staff_photo_path = inr img ->
    face_locations L img (encoding_model self) = inr [] ->
    exists is_match confidence_score error_message w',
      verify_face Image (Some L) format_3f self staff_photo_path
        uploaded_photo w
      = (Return (is_match, confidence_score, error_message), w')
      /\ determine_message staff_name is_match error_message
         = "No face detected in the uploaded photo"
      /\ calls w'
         = calls w ++ [call_load_image_file staff_photo_path;
                       call_face_locations (encoding_model self)].
Proof.
  intros pil_image image_array Image L format_3f self staff_photo_path
    staff_name uploaded_photo img w Hload Hloc.
  unfold verify_face, try_except, bind at 1.
  rewrite (extract_face_encoding_no_face Image L self
             (FilePath staff_photo_path) img w
             (record_call (call_load_image_file staff_photo_path) w));
    [| unfold load_image, call; now rewrite Hload | exact Hloc].
  unfold ret. eexists _, _, _, _. split; [reflexivity|].
  split; [reflexivity|].
  cbn [calls record_call]. now rewrite <- app_assoc.
Qed.

Lemma staff_photo_without_face_is_reported_as_uploaded_witness :
  exists is_match confidence_score error_message w',
    verify_face Sample.Image (Some Sample.libraries) Sample.format_3f
      Sample.face_recognition_service "wall.jpg" (Sample.upload "alice.jpg")
      empty_world
    = (Return (is_match, confidence_score, error_message), w')
    /\ determine_message "John Doe" is_match error_message
       = "No face detected in the uploaded photo"
    /\ calls w'
       = [] ++ [call_load_image_file "wall.jpg"; call_face_locations "large"].
Proof.
  apply (staff_photo_without_face_is_reported_as_uploaded Sample.Image
           Sample.libraries Sample.format_3f
           Sample.face_recognition_service "wall.jpg" "John Doe"
           (Sample.upload "alice.jpg") [] empty_world).
  - reflexivity.
  - reflexivity.
Defined.

(** ** The confidence of a match is a number *)

Lemma shr_1_nonneg mrs : (0 <= shr_m mrs)%Z -> (0 <= shr_m (shr_1 mrs))%Z.
Proof.
  destruct mrs as [m r s]. simpl.
  destruct m as [|[p|p|]|[p|p|]]; simpl; lia.
Qed.

Lemma iter_shr_1_nonneg p : forall mrs,
  (0 <= shr_m mrs)%Z -> (0 <= shr_m (iter_pos shr_1 p mrs))%Z.
Proof.
  induction p as [p IH|p IH|]; intros mrs H; simpl.
  - apply IH, IH, shr_1_nonneg, H.
  - apply IH, IH, H.
  - apply shr_1_nonneg, H.
Qed.

Lemma shr_fexp_nonneg prec emax m e l :
  (0 <= m)%Z -> (0 <= shr_m (fst (shr_fexp prec emax m e l)))%Z.
Proof.
  intros H. unfold shr_fexp, shr.
  assert (H0 : (0 <= shr_m (shr_record_of_loc m l))%Z)
    by (destruct l as [|[]]; exact H).
  destruct (fexp prec emax (Zdigits2 m + e) - e)%Z; simpl; auto.
  apply iter_shr_1_nonneg, H0.
Qed.

Lemma binary_round_aux_not_nan prec emax s m e l :
  (0 <= m)%Z -> binary_round_aux prec emax s m e l <> S754_nan.
Proof.
  intros H. unfold binary_round_aux.
  pose proof (shr_fexp_nonneg prec emax m e l H) as H1.
  destruct (shr_fexp prec emax m e l) as [mrs' e']. cbn [fst] in H1.
  assert (H2 : (0 <= round_nearest_even (shr_m mrs')
                         (loc_of_shr_record mrs'))%Z).
  { unfold round_nearest_even.
    destruct (loc_of_shr_record mrs') as [|[]]; try lia.
    destruct (Z.even (shr_m mrs')); lia. }
  pose proof (shr_fexp_nonneg prec emax _ e' loc_Exact H2) as H3.
  destruct (shr_fexp prec emax _ e' loc_Exact) as [mrs'' e''].
  cbn [fst] in H3.
  destruct (shr_m mrs''); try discriminate; [|lia].
  destruct (Z.leb e'' (emax - prec)); discriminate.
Qed.

Lemma binary_normalize_not_nan prec emax m e :
  binary_normalize prec emax m e false <> S754_nan.
Proof.
  destruct m as [|p|p]; simpl; [discriminate| |];
    unfold binary_round; destruct (shl_align p e _) as [mz ez];
    apply binary_round_aux_not_nan; lia.
Qed.

Lemma SFsub_finite_not_nan prec emax s m e y :
  y <> S754_nan -> SFsub prec emax (S754_finite s m e) y <> S754_nan.
Proof.
  intros Hy. destruct y as [sy|sy| |sy my ey]; simpl; try discriminate.
  - now contradiction Hy.
  - apply binary_normalize_not_nan.
Qed.

Lemma leb_true_not_nan (x y : float) :
  (x <=? y)%float = true -> Prim2SF x <> S754_nan.
Proof.
  rewrite leb_spec. intros H E. rewrite E in H. discriminate.
Qed.

Lemma SFeqb_refl x : x <> S754_nan -> SFeqb x x = true.
Proof.
  unfold SFeqb, SFcompare. destruct x as [s|s| |s m e]; intros H.
  - reflexivity.
  - destruct s; reflexivity.
  - now contradiction H.
  - destruct s; rewrite Z.compare_refl;
      change (Pos.compare_cont Eq m m) with (Pos.compare m m);
      rewrite Pos.compare_refl; reflexivity.
Qed.

Lemma one_minus_not_nan (d t : float) :
  (d <=? t)%float = true -> is_nan (1 - d)%float = false.
Proof.
  intros H. unfold is_nan. rewrite eqb_spec, sub_spec.
  rewrite SFeqb_refl; [reflexivity|].
  change (Prim2SF 1) with (S754_finite false 4503599627370496 (-52)).
  apply SFsub_finite_not_nan, (leb_true_not_nan d t H).
Qed.

(** X18. A match always comes with a confidence that is a number:
    whenever [compare_faces] answers a match, its confidence is not
    NaN. *)
Theorem compare_faces_match_has_numeric_confidence :
  forall {pil_image image_array : Type}
    (fr : option (Libraries pil_image image_array))
    (format_3f : float -> string) (self : FaceRecognitionService)
    (known unknown : encoding) (c : float) (w w' : World),
    compare_faces fr format_3f self known unknown w
    = (Return (true, c), w') ->
    is_nan c = false.
Proof.
  intros pil_image image_array fr format_3f self known unknown c w w' H.
  pose proof (compare_faces_value format_3f fr self known unknown w) as Hv.
  rewrite H in Hv. cbn [fst] in Hv. unfold compare_outcome in Hv.
  destruct (distance_of fr known unknown) as [e|d]; [discriminate|].
  injection Hv as Hm ->.
  apply (one_minus_not_nan d (RECOGNITION_THRESHOLD self)). now symmetry.
Qed.

Lemma compare_faces_match_has_numeric_confidence_witness :
  is_nan (1 - norm [0.1 - 0.1; 0.2 - 0.25; 0.3 - 0.3])%float = false.
Proof.
  apply (compare_faces_match_has_numeric_confidence
           (Some Sample.libraries) Sample.format_3f
           Sample.face_recognition_service Sample.alice Sample.alice_again
           _ empty_world
           (snd (compare_faces (Some Sample.libraries) Sample.format_3f
                   Sample.face_recognition_service Sample.alice
                   Sample.alice_again empty_world))).
  reflexivity.
Defined.
